(** * Announcements endpoints of the High School Management System API

    A shallow embedding of [src/backend/routers/announcements.py] and the
    properties of its five request handlers.

    Python dictionaries are finite maps from keys to dynamically typed
    values, the two MongoDB collections are lists of documents in natural
    order, and a handler is a computation in a state-and-exception monad
    over the database.  Python [str] values are kept as their UTF-8 bytes
    and Python [bytes] as raw byte strings, both in Rocq's [string]. *)

From Stdlib Require Import ZArith NArith Ascii String List.
From stdpp Require Import gmap strings list sorting.

Local Open Scope string_scope.
Local Open Scope Z_scope.

(** ** Values and documents *)

(** The values the handlers store in, and read from, a document:
    [None], a [str], or a [bson.ObjectId] (whose state is its [binary]). *)
Inductive value : Type :=
  | VNone
  | VStr (s : string)
  | VObjectId (binary : string).

Global Instance value_eq_dec : EqDecision value.
Proof. solve_decision. Defined.

Abbreviation document := (gmap string value).

(** Python truthiness: [None] and [""] are falsy, every object is truthy. *)
Definition truthy (v : value) : bool :=
  match v with
  | VNone => false
  | VStr s => negb (String.eqb s "")
  | VObjectId _ => true
  end.

(** [if x:] on an [Optional[str]] parameter. *)
Definition truthy_param (p : option string) : bool :=
  match p with
  | None => false
  | Some s => negb (String.eqb s "")
  end.

(** [if d:] on the result of [find_one]: [None] and the empty dict are falsy. *)
Definition truthy_doc (r : option document) : bool :=
  match r with
  | None => false
  | Some d => negb (bool_decide (d = ∅))
  end.

(** [d.get(key)], which yields [None] for a missing key. *)
Definition dict_get (key : string) (d : document) : value :=
  default VNone (d !! key).

(** [d.get(key, dflt)]. *)
Definition dict_get_default (key : string) (dflt : value) (d : document) : value :=
  default dflt (d !! key).

(** ** Strings and bytes *)

(** [s.replace(old, new)] for a one-character [old]. *)
Fixpoint str_replace (old : ascii) (new : string) (s : string) : string :=
  match s with
  | EmptyString => EmptyString
  | String c s' =>
      if Ascii.eqb c old then new ++ str_replace old new s'
      else String c (str_replace old new s')
  end.

(** [date.replace('Z', '+00:00')], the normalisation the handlers apply
    before every parse. *)
Definition normalize_Z (s : string) : string := str_replace "Z" "+00:00" s.

Definition hex_value (c : ascii) : option N :=
  let n := N_of_ascii c in
  if ((48 <=? n) && (n <=? 57))%N then Some (n - 48)%N
  else if ((97 <=? n) && (n <=? 102))%N then Some (n - 87)%N
  else if ((65 <=? n) && (n <=? 70))%N then Some (n - 55)%N
  else None.

Definition is_ascii_space (c : ascii) : bool :=
  let n := N_of_ascii c in (((9 <=? n) && (n <=? 13)) || (n =? 32))%N.

(** [bytes.fromhex]: two hexadecimal digits per byte, ASCII whitespace
    skipped between bytes; [None] stands for [ValueError]. *)
Fixpoint bytes_fromhex (s : string) : option string :=
  match s with
  | EmptyString => Some EmptyString
  | String c s' =>
      if is_ascii_space c then bytes_fromhex s'
      else
        match hex_value c, s' with
        | Some hi, String c' s'' =>
            match hex_value c' with
            | Some lo =>
                String (ascii_of_N (16 * hi + lo)) <$> bytes_fromhex s''
            | None => None
            end
        | _, _ => None
        end
  end.

Definition hex_digit (n : N) : ascii :=
  if (n <? 10)%N then ascii_of_N (48 + n) else ascii_of_N (87 + n).

(** [binascii.hexlify(b).decode()]. *)
Fixpoint hexlify (b : string) : string :=
  match b with
  | EmptyString => EmptyString
  | String c b' =>
      let n := N_of_ascii c in
      String (hex_digit (n / 16)) (String (hex_digit (n mod 16)) (hexlify b'))
  end.

(** [str(v)]. *)
Definition py_str (v : value) : string :=
  match v with
  | VNone => "None"
  | VStr s => s
  | VObjectId b => hexlify b
  end.

(** ** Exceptions and the handler monad *)

Inductive exn : Type :=
  | HTTPException (status_code : Z) (detail : string)
  | ValueError
  | TypeError
  | KeyError
  | AttributeError
  | InvalidId
  | DuplicateKeyError.

Inductive outcome (A : Type) : Type :=
  | Return (a : A)
  | Raise (e : exn).
Arguments Return {A} a.
Arguments Raise {A} e.

(** The two collections that the module imports from [..database]: the
    state the handlers run against.  A collection is the list of its
    documents in natural order. *)
Record database : Type := {
  announcements_collection : list document;
  teachers_collection : list document
}.

Definition set_announcements (c : list document) (db : database) : database :=
  {| announcements_collection := c;
     teachers_collection := teachers_collection db |}.

(** A handler runs against the database and either returns or raises. *)
Definition M (A : Type) : Type := database → outcome A * database.

Definition ret {A} (a : A) : M A := λ db, (Return a, db).
Definition raise {A} (e : exn) : M A := λ db, (Raise e, db).
Definition bind {A B} (m : M A) (k : A → M B) : M B :=
  λ db, match m db with
        | (Return a, db') => k a db'
        | (Raise e, db') => (Raise e, db')
        end.

(** [try: m  except <caught>: h]. *)
Definition try_except {A} (m : M A) (caught : exn → bool) (h : M A) : M A :=
  λ db, match m db with
        | (Return a, db') => (Return a, db')
        | (Raise e, db') => if caught e then h db' else (Raise e, db')
        end.

Definition except_ValueError (e : exn) : bool :=
  match e with ValueError => true | _ => false end.

(** A bare [except:] catches everything. *)
Definition except_any (e : exn) : bool := true.

Declare Scope handler_scope.
Delimit Scope handler_scope with handler.
Notation "x <- m ;; k" := (bind m (λ x, k))
  (at level 100, m at next level, right associativity) : handler_scope.
Notation "m ;; k" := (bind m (λ _, k))
  (at level 100, right associativity) : handler_scope.

Definition lift_option {A} (e : exn) (o : option A) : M A :=
  match o with
  | Some a => ret a
  | None => raise e
  end.

(** ** The document store *)

(** BSON comparison order on the values at hand: null sorts before every
    string, every string before every ObjectId; strings and ObjectIds
    compare bytewise. *)
Definition bson_rank (v : value) : nat :=
  match v with
  | VNone => 0
  | VStr _ => 1
  | VObjectId _ => 2
  end.

Definition bson_le (v w : value) : Prop :=
  match v, w with
  | VStr a, VStr b => (a ≤ b)%string
  | VObjectId a, VObjectId b => (a ≤ b)%string
  | _, _ => (bson_rank v ≤ bson_rank w)%nat
  end.

Global Instance bson_le_dec : RelDecision bson_le.
Proof. intros [] []; simpl; apply _. Defined.

(** The filters the handlers pass to [find], [find_one], [update_one] and
    [delete_one]. *)
#[warnings="-register-all"]
Inductive query : Type :=
  | Q_all
  | Q_eq (field : string) (v : value)
  | Q_gte (field : string) (v : value)
  | Q_lte (field : string) (v : value)
  | Q_and (qs : list query)
  | Q_or (qs : list query).

(** [{f: v}] is an equality match in which a missing field counts as
    null; a comparison operator matches only fields of the operand's BSON
    type. *)
Fixpoint matches (q : query) (d : document) : bool :=
  match q with
  | Q_all => true
  | Q_eq f v => bool_decide (dict_get f d = v)
  | Q_gte f v =>
      let w := dict_get f d in
      bool_decide (bson_rank w = bson_rank v) && bool_decide (bson_le v w)
  | Q_lte f v =>
      let w := dict_get f d in
      bool_decide (bson_rank w = bson_rank v) && bool_decide (bson_le w v)
  | Q_and qs => forallb (λ q', matches q' d) qs
  | Q_or qs => existsb (λ q', matches q' d) qs
  end.

Definition find (q : query) (c : list document) : list document :=
  filter (λ d, matches q d = true) c.

Definition find_one (q : query) (c : list document) : option document :=
  head (find q c).

(** [cursor.sort(key, -1)]: descending in BSON order, a missing key
    sorting as null. *)
Definition sort_rel_desc (key : string) (d1 d2 : document) : Prop :=
  bson_le (dict_get key d2) (dict_get key d1).

Global Instance sort_rel_desc_dec key : RelDecision (sort_rel_desc key).
Proof. intros d1 d2; unfold sort_rel_desc; apply _. Defined.

Definition sort_desc (key : string) (l : list document) : list document :=
  merge_sort (sort_rel_desc key) l.

(** [update_one(q, {"$set": fields})]: the first match gets [fields]
    written over its own. *)
Fixpoint update_one_set (q : query) (fields : document) (c : list document)
    : list document :=
  match c with
  | [] => []
  | d :: c' =>
      if matches q d then (fields ∪ d) :: c'
      else d :: update_one_set q fields c'
  end.

(** [delete_one(q)]: the first match is removed; the pair holds
    [deleted_count] and the remaining collection. *)
Fixpoint delete_one (q : query) (c : list document) : nat * list document :=
  match c with
  | [] => (0%nat, [])
  | d :: c' =>
      if matches q d then (1%nat, c')
      else let '(n, r) := delete_one q c' in (n, d :: r)
  end.

(** ** The library interface of [datetime]

    [fromisoformat] yields [None] where Python raises [ValueError], and
    [datetime_ge], the operator [>=], yields [None] where Python raises
    [TypeError] (an offset-naive operand against an offset-aware one).
    No version of the parser accepts the empty string. *)
Class Datetime : Type := {
  datetime : Type;
  fromisoformat : string → option datetime;
  datetime_ge : datetime → datetime → option bool;
  fromisoformat_empty : fromisoformat "" = None
}.

(** ** The handlers *)

Local Open Scope handler_scope.

Definition announcements_find_sorted (q : query) (key : string)
    : M (list document) :=
  λ db, (Return (sort_desc key (find q (announcements_collection db))), db).

Definition announcements_find_one (q : query) : M (option document) :=
  λ db, (Return (find_one q (announcements_collection db)), db).

Definition teachers_find_one (q : query) : M (option document) :=
  λ db, (Return (find_one q (teachers_collection db)), db).

(** [insert_one(doc)] for a document without [_id]: the driver generates
    the ObjectId [new_id], stores the document under it and reports it as
    [inserted_id]; the store refuses an [_id] it already holds. *)
Definition announcements_insert_one (new_id : value) (doc : document)
    : M value :=
  λ db,
    let c := announcements_collection db in
    match find_one (Q_eq "_id" new_id) c with
    | Some _ => (Raise DuplicateKeyError, db)
    | None => (Return new_id, set_announcements (c ++ [<["_id" := new_id]> doc]) db)
    end.

Definition announcements_update_one (q : query) (fields : document) : M unit :=
  λ db, (Return tt,
         set_announcements (update_one_set q fields (announcements_collection db)) db).

Definition announcements_delete_one (q : query) : M nat :=
  λ db, let '(n, c) := delete_one q (announcements_collection db) in
        (Return n, set_announcements c db).

(** [ObjectId(s)] for a [str]: 24 characters that [bytes.fromhex] accepts. *)
Definition ObjectId (s : string) : option value :=
  if (String.length s =? 24)%nat then VObjectId <$> bytes_fromhex s else None.

Definition py_ObjectId (s : string) : M value := lift_option InvalidId (ObjectId s).

(** [for x in l: out.append(f(x))]. *)
Fixpoint for_each {A B} (f : A → M B) (l : list A) : M (list B) :=
  match l with
  | [] => ret []
  | x :: l' => y <- f x;; ys <- for_each f l';; ret (y :: ys)
  end.

(** [announcement["_id"] = str(announcement["_id"])]. *)
Definition stringify_id (announcement : document) : M document :=
  _id <- lift_option KeyError (announcement !! "_id");;
  ret (<["_id" := VStr (py_str _id)]> announcement).

(** A parameter of type [Optional[str]] as a dictionary value. *)
Definition value_of_param (p : option string) : value :=
  match p with
  | None => VNone
  | Some s => VStr s
  end.

(** The dictionary that [create_announcement] builds, lines 109-115. *)
Definition new_announcement (message : string) (start_date : option string)
    (end_date teacher_username created_at : string) : document :=
  <["message" := VStr message]>
    (<["start_date" := value_of_param start_date]>
       (<["end_date" := VStr end_date]>
          (<["created_by" := VStr teacher_username]>
             (<["created_at" := VStr created_at]> ∅)))).

(** The filter of [get_active_announcements], lines 29-39. *)
Definition active_query (now : string) : query :=
  Q_and [ Q_gte "end_date" (VStr now);
          Q_or [ Q_eq "start_date" VNone;
                 Q_lte "start_date" (VStr now) ] ].

(** Lines 18-46; [now] is [datetime.now().isoformat()]. *)
Definition get_active_announcements (now : string) : M (list document) :=
  cursor <- announcements_find_sorted (active_query now) "created_at";;
  for_each stringify_id cursor.

(** The block "Check teacher authentication" that opens the four
    privileged handlers (lines 54-62, 86-94, 134-142, 210-218); it yields
    the user name it let through. *)
Definition check_teacher_authentication (teacher_username : option string)
    : M string :=
  if negb (truthy_param teacher_username) then
    raise (HTTPException 401 "Authentication required for this action")
  else
    let username := default "" teacher_username in
    teacher <- teachers_find_one (Q_eq "_id" (VStr username));;
    if negb (truthy_doc teacher) then
      raise (HTTPException 401 "Invalid teacher credentials")
    else ret username.

(** Lines 49-69. *)
Definition get_all_announcements (teacher_username : option string)
    : M (list document) :=
  _ <- check_teacher_authentication teacher_username;;
  cursor <- announcements_find_sorted Q_all "created_at";;
  for_each stringify_id cursor.

Section Handlers.
Context `{Datetime}.

Definition py_fromisoformat (s : string) : M datetime :=
  lift_option ValueError (fromisoformat s).

Definition py_datetime_ge (a b : datetime) : M bool :=
  lift_option TypeError (datetime_ge a b).

(** [v.replace('Z', '+00:00')] on a dictionary value: only [str] has the
    method. *)
Definition py_normalize_Z (v : value) : M string :=
  match v with
  | VStr s => ret (normalize_Z s)
  | _ => raise AttributeError
  end.

(** Lines 72-120; [now] is [datetime.now().isoformat()] and
    [inserted_id] the bytes of the ObjectId the driver generates. *)
Definition create_announcement (message end_date : string)
    (start_date teacher_username : option string)
    (now inserted_id : string) : M document :=
  username <- check_teacher_authentication teacher_username;;
  try_except
    (end_dt <- py_fromisoformat (normalize_Z end_date);;
     if truthy_param start_date then
       start_dt <- py_fromisoformat (normalize_Z (default "" start_date));;
       ge <- py_datetime_ge start_dt end_dt;;
       if ge then
         raise (HTTPException 400 "Start date must be before end date")
       else ret tt
     else ret tt)
    except_ValueError
    (raise (HTTPException 400
              "Invalid date format. Use ISO format (YYYY-MM-DDTHH:MM:SS)"));;
  let announcement := new_announcement message start_date end_date username now in
  _id <- announcements_insert_one (VObjectId inserted_id) announcement;;
  ret (<["_id" := VStr (py_str _id)]> announcement).

(** Lines 153-173: the dictionary of fields to write. *)
Definition build_update_fields (message end_date start_date : option string)
    : M document :=
  let update_fields : document := ∅ in
  let update_fields :=
    match message with
    | Some m => <["message" := VStr m]> update_fields
    | None => update_fields
    end in
  update_fields <-
    match end_date with
    | Some e =>
        try_except
          (_ <- py_fromisoformat (normalize_Z e);;
           ret (<["end_date" := VStr e]> update_fields))
          except_ValueError
          (raise (HTTPException 400 "Invalid end_date format. Use ISO format"))
    | None => ret update_fields
    end;;
  match start_date with
  | Some s =>
      if String.eqb s "" then ret (<["start_date" := VNone]> update_fields)
      else
        try_except
          (_ <- py_fromisoformat (normalize_Z s);;
           ret (<["start_date" := VStr s]> update_fields))
          except_ValueError
          (raise (HTTPException 400 "Invalid start_date format. Use ISO format"))
  | None => ret update_fields
  end.

(** Lines 175-187: the check of the prospective final dates. *)
Definition validate_date_logic (update_fields announcement : document)
    : M unit :=
  let final_start :=
    dict_get_default "start_date" (dict_get "start_date" announcement)
      update_fields in
  let final_end :=
    dict_get_default "end_date" (dict_get "end_date" announcement)
      update_fields in
  if truthy final_start && truthy final_end then
    try_except
      (s <- py_normalize_Z final_start;;
       start_dt <- py_fromisoformat s;;
       e <- py_normalize_Z final_end;;
       end_dt <- py_fromisoformat e;;
       ge <- py_datetime_ge start_dt end_dt;;
       if ge then
         raise (HTTPException 400 "Start date must be before end date")
       else ret tt)
      except_ValueError
      (ret tt)
  else ret tt.

(** Lines 123-199. *)
Definition update_announcement (announcement_id : string)
    (message end_date start_date teacher_username : option string)
    : M document :=
  _ <- check_teacher_authentication teacher_username;;
  announcement <-
    try_except
      (oid <- py_ObjectId announcement_id;;
       announcements_find_one (Q_eq "_id" oid))
      except_any
      (raise (HTTPException 400 "Invalid announcement ID"));;
  if negb (truthy_doc announcement) then
    raise (HTTPException 404 "Announcement not found")
  else
    let announcement := default ∅ announcement in
    update_fields <- build_update_fields message end_date start_date;;
    validate_date_logic update_fields announcement;;
    (if negb (bool_decide (update_fields = ∅)) then
       oid <- py_ObjectId announcement_id;;
       announcements_update_one (Q_eq "_id" oid) update_fields
     else ret tt);;
    oid <- py_ObjectId announcement_id;;
    updated <- announcements_find_one (Q_eq "_id" oid);;
    match updated with
    | Some updated => stringify_id updated
    | None => raise TypeError
    end.

End Handlers.

(** Lines 202-229. *)
Definition delete_announcement (announcement_id : string)
    (teacher_username : option string) : M document :=
  _ <- check_teacher_authentication teacher_username;;
  deleted_count <-
    try_except
      (oid <- py_ObjectId announcement_id;;
       announcements_delete_one (Q_eq "_id" oid))
      except_any
      (raise (HTTPException 400 "Invalid announcement ID"));;
  if (deleted_count =? 0)%nat then
    raise (HTTPException 404 "Announcement not found")
  else ret {[ "message" := VStr "Announcement deleted successfully" ]}.

(** ** A reference implementation of the [datetime] interface

    The parser reads the format that [datetime.isoformat()] writes and
    that every CPython since 3.7 reads back:
    [YYYY-MM-DD[*HH[:MM[:SS[.fff[fff]]]][(+|-)HH:MM[:SS[.ffffff]]]]],
    with the field ranges the [datetime] constructor enforces. *)
Module CPython.

Record datetime : Type := {
  year : Z; month : Z; day : Z;
  hour : Z; minute : Z; second : Z; microsecond : Z;
  utcoffset : option Z   (* microseconds east of UTC; [None] when naive *)
}.

Definition is_digit (c : ascii) : bool :=
  let n := N_of_ascii c in ((48 <=? n) && (n <=? 57))%N.

Definition digit (c : ascii) : Z := Z.of_N (N_of_ascii c) - 48.

Fixpoint parse_digits_from (acc : Z) (s : string) : option Z :=
  match s with
  | EmptyString => Some acc
  | String c s' =>
      if is_digit c then parse_digits_from (10 * acc + digit c) s' else None
  end.

(** A field of exactly [n] decimal digits. *)
Definition parse_digits (n : nat) (s : string) : option Z :=
  if (String.length s =? n)%nat then parse_digits_from 0 s else None.

Definition two_digits (s : string) : option (Z * string) :=
  match s with
  | String a (String b rest) =>
      if is_digit a && is_digit b then Some (10 * digit a + digit b, rest)
      else None
  | _ => None
  end.

(** [HH[:MM[:SS[.fff[fff]]]]] as hours, minutes, seconds, microseconds. *)
Definition parse_hh_mm_ss_ff (s : string) : option (Z * Z * Z * Z) :=
  match two_digits s with
  | None => None
  | Some (hh, EmptyString) => Some (hh, 0, 0, 0)
  | Some (hh, String sep1 r1) =>
      if negb (Ascii.eqb sep1 ":") then None else
      match two_digits r1 with
      | None => None
      | Some (mm, EmptyString) => Some (hh, mm, 0, 0)
      | Some (mm, String sep2 r2) =>
          if negb (Ascii.eqb sep2 ":") then None else
          match two_digits r2 with
          | None => None
          | Some (ss, EmptyString) => Some (hh, mm, ss, 0)
          | Some (ss, String dot frac) =>
              if negb (Ascii.eqb dot ".") then None else
              match String.length frac with
              | 3%nat => (λ ms, (hh, mm, ss, ms * 1000)) <$> parse_digits 3 frac
              | 6%nat => (λ us, (hh, mm, ss, us)) <$> parse_digits 6 frac
              | _ => None
              end
          end
      end
  end.

(** The text before and after the first occurrence of [c]. *)
Fixpoint split_at (c : ascii) (s : string) : option (string * string) :=
  match s with
  | EmptyString => None
  | String a s' =>
      if Ascii.eqb a c then Some (EmptyString, s')
      else (λ p : string * string, (String a p.1, p.2)) <$> split_at c s'
  end.

Definition day_us : Z := 86400 * 1000000.

Definition parse_offset (sign : Z) (tzstr : string) : option Z :=
  let n := String.length tzstr in
  if negb ((n =? 5) || (n =? 8) || (n =? 15))%nat then None else
  match parse_hh_mm_ss_ff tzstr with
  | None => None
  | Some (h, m, s, us) =>
      let off := sign * (((h * 60 + m) * 60 + s) * 1000000 + us) in
      if (- day_us <? off) && (off <? day_us) then Some off else None
  end.

Definition parse_isoformat_time (tstr : string)
    : option (Z * Z * Z * Z * option Z) :=
  let tz :=
    match split_at "-" tstr with
    | Some p => Some (-1, p)
    | None =>
        match split_at "+" tstr with
        | Some p => Some (1, p)
        | None => None
        end
    end in
  match tz with
  | None => (λ t, (t, None)) <$> parse_hh_mm_ss_ff tstr
  | Some (sign, (timestr, tzstr)) =>
      match parse_hh_mm_ss_ff timestr, parse_offset sign tzstr with
      | Some t, Some off => Some (t, Some off)
      | _, _ => None
      end
  end.

Definition parse_isoformat_date (dstr : string) : option (Z * Z * Z) :=
  match parse_digits 4 (substring 0 4 dstr),
        parse_digits 2 (substring 5 2 dstr),
        parse_digits 2 (substring 8 2 dstr) with
  | Some y, Some m, Some d =>
      if String.eqb (substring 4 1 dstr) "-"
         && String.eqb (substring 7 1 dstr) "-"
      then Some (y, m, d) else None
  | _, _, _ => None
  end.

Definition is_leap (y : Z) : bool :=
  (y mod 4 =? 0) && (negb (y mod 100 =? 0) || (y mod 400 =? 0)).

Definition days_in_month (y m : Z) : Z :=
  if m =? 2 then (if is_leap y then 29 else 28)
  else if (m =? 4) || (m =? 6) || (m =? 9) || (m =? 11) then 30
  else 31.

Definition valid_fields (y mo d h mi s us : Z) : bool :=
  (1 <=? y) && (y <=? 9999) && (1 <=? mo) && (mo <=? 12)
  && (1 <=? d) && (d <=? days_in_month y mo)
  && (h <=? 23) && (mi <=? 59) && (s <=? 59) && (us <=? 999999).

Definition make (y mo d h mi s us : Z) (tz : option Z) : option datetime :=
  if valid_fields y mo d h mi s us then
    Some {| year := y; month := mo; day := d; hour := h; minute := mi;
            second := s; microsecond := us; utcoffset := tz |}
  else None.

Definition fromisoformat (date_string : string) : option datetime :=
  match parse_isoformat_date (substring 0 10 date_string) with
  | None => None
  | Some (y, mo, d) =>
      let n := String.length date_string in
      if (n =? 10)%nat then make y mo d 0 0 0 0 None
      else
        match parse_isoformat_time (substring 11 (n - 11) date_string) with
        | Some (h, mi, s, us, tz) => make y mo d h mi s us tz
        | None => None
        end
  end.

Fixpoint days_before_month (y : Z) (m : nat) : Z :=
  match m with
  | O => 0
  | S m' => days_before_month y m' + days_in_month y (Z.of_nat m)
  end.

(** The proleptic Gregorian ordinal of a date, 0001-01-01 being day 1. *)
Definition ordinal (y m d : Z) : Z :=
  let y1 := y - 1 in
  y1 * 365 + y1 / 4 - y1 / 100 + y1 / 400
  + days_before_month y (Z.to_nat (m - 1)) + d.

(** Microseconds of the wall-clock reading since the start of day 0. *)
Definition wall_us (t : datetime) : Z :=
  (((ordinal (year t) (month t) (day t) * 24 + hour t) * 60 + minute t) * 60
   + second t) * 1000000 + microsecond t.

(** [a >= b]: wall-clock readings when both are naive, instants when
    both are aware, [TypeError] otherwise. *)
Definition datetime_ge (a b : datetime) : option bool :=
  match utcoffset a, utcoffset b with
  | None, None => Some (wall_us b <=? wall_us a)
  | Some oa, Some ob => Some (wall_us b - ob <=? wall_us a - oa)
  | _, _ => None
  end.

Lemma rejects_empty : fromisoformat "" = None.
Proof. reflexivity. Qed.

End CPython.

Global Instance cpython_datetime : Datetime := {|
  datetime := CPython.datetime;
  fromisoformat := CPython.fromisoformat;
  datetime_ge := CPython.datetime_ge;
  fromisoformat_empty := CPython.rejects_empty
|}.

(** ** Specification vocabulary *)

(** The shared authorization rule: a non-empty requester identifier is
    supplied and a teacher record with exactly that identifier exists.
    Nothing else of the teacher record is consulted. *)
Definition authorized (db : database) (teacher_username : option string) : Prop :=
  ∃ u, teacher_username = Some u ∧ u ≠ "" ∧
       ∃ t, t ∈ teachers_collection db ∧ t !! "_id" = Some (VStr u).

Definition is_401 (e : exn) : Prop := ∃ detail, e = HTTPException 401 detail.

(** The response is the error Unauthorized. *)
Definition unauthorized {A} (r : outcome A * database) : Prop :=
  ∃ e, r.1 = Raise e ∧ is_401 e.

(** A computation that raises Unauthorized from no database. *)
Definition never_401 {A} (m : M A) : Prop :=
  ∀ db e db', m db = (Raise e, db') → ¬ is_401 e.

(** A computation under which the property [P] of the database is kept,
    whatever the outcome. *)
Definition preserves {A} (P : database → Prop) (m : M A) : Prop :=
  ∀ db o db', P db → m db = (o, db') → P db'.

(** An announcement is active at [now]: its [end_date] is a string not
    before [now], and its [start_date] is absent, null, or a string not
    after [now]; strings compare bytewise. *)
Definition is_active (now : string) (a : document) : Prop :=
  match a !! "end_date" with
  | Some (VStr e) => (now ≤ e)%string
  | _ => False
  end ∧
  match a !! "start_date" with
  | None | Some VNone => True
  | Some (VStr s) => (s ≤ now)%string
  | Some (VObjectId _) => False
  end.

Global Instance is_active_dec now a : Decision (is_active now a).
Proof.
  unfold is_active.
  destruct (a !! "end_date") as [[]|], (a !! "start_date") as [[]|]; apply _.
Defined.

(** No stored announcement carries the identifier [oid]. *)
Definition unused_id (oid : value) (db : database) : Prop :=
  ∀ d, d ∈ announcements_collection db → d !! "_id" ≠ Some oid.

Definition is_400 (e : exn) : Prop := ∃ detail, e = HTTPException 400 detail.
Definition is_404 (e : exn) : Prop := ∃ detail, e = HTTPException 404 detail.

(** The string parses as a datetime after the Z normalisation. *)
Definition parses `{Datetime} (s : string) : Prop :=
  is_Some (fromisoformat (normalize_Z s)).

(** The value a supplied [start_date] writes: the empty string clears. *)
Definition start_date_value (s : string) : value :=
  if String.eqb s "" then VNone else VStr s.

(** The fields an update request supplies, as the values they write. *)
Definition update_fields_of (message end_date start_date : option string)
    : document :=
  let fields : document := ∅ in
  let fields :=
    match message with
    | Some m => <["message" := VStr m]> fields
    | None => fields
    end in
  let fields :=
    match end_date with
    | Some e => <["end_date" := VStr e]> fields
    | None => fields
    end in
  match start_date with
  | Some s => <["start_date" := start_date_value s]> fields
  | None => fields
  end.

Global Arguments update_fields_of : simpl never.

(** The prospective final dates of an update: a supplied value overrides
    the stored one. *)
Definition final_start_date (start_date : option string) (stored : document)
    : value :=
  match start_date with
  | Some s => start_date_value s
  | None => dict_get "start_date" stored
  end.

Definition final_end_date (end_date : option string) (stored : document)
    : value :=
  match end_date with
  | Some e => VStr e
  | None => dict_get "end_date" stored
  end.

(** Every stored document carries an [_id]: the store's own guarantee. *)
Definition has_id (d : document) : Prop := is_Some (d !! "_id").

Definition ids_present (db : database) : Prop :=
  Forall has_id (announcements_collection db).

(** A stored document as the list handlers serialise it: the same
    fields, the [_id] turned into its string. *)
Definition response_of (d : document) : document :=
  <["_id" := VStr (py_str (dict_get "_id" d))]> d.

(** ** A worked database *)

Module Example.

Definition teacher : document :=
  <["_id" := VStr "mchen"]> (<["display_name" := VStr "Ms. Chen"]> ∅).

Definition oid1 : string := Eval vm_compute in
  default "" (bytes_fromhex "507f1f77bcf86cd799439011").
Definition oid2 : string := Eval vm_compute in
  default "" (bytes_fromhex "507f1f77bcf86cd799439012").
Definition oid3 : string := Eval vm_compute in
  default "" (bytes_fromhex "507f1f77bcf86cd799439013").

Definition sports_day : document :=
  <["_id" := VObjectId oid1]>
    (new_announcement "Sports day" (Some "2025-01-01T00:00:00")
       "2025-12-31T23:59:59" "mchen" "2024-12-01T08:00:00").

Definition library_closed : document :=
  <["_id" := VObjectId oid2]>
    (new_announcement "Library closed" None
       "2024-06-30T00:00:00" "mchen" "2024-06-01T09:30:00").

Definition db : database :=
  {| announcements_collection := [sports_day; library_closed];
     teachers_collection := [teacher] |}.

Definition naive (y mo d h mi s : Z) : @datetime cpython_datetime :=
  {| CPython.year := y; CPython.month := mo; CPython.day := d;
     CPython.hour := h; CPython.minute := mi; CPython.second := s;
     CPython.microsecond := 0; CPython.utcoffset := None |}.

Definition utc (y mo d h mi s : Z) : @datetime cpython_datetime :=
  {| CPython.year := y; CPython.month := mo; CPython.day := d;
     CPython.hour := h; CPython.minute := mi; CPython.second := s;
     CPython.microsecond := 0; CPython.utcoffset := Some 0 |}.

End Example.

(** What a successful delete answers, line 229. *)
Definition deleted_confirmation : document :=
  {[ "message" := VStr "Announcement deleted successfully" ]}.

(** No two stored announcements share an [_id]: the store's unique index
    on that field. *)
Definition ids_unique (db : database) : Prop :=
  NoDup (dict_get "_id" <$> announcements_collection db).

(** The document carries its [_id] as a string. *)
Definition string_id (d : document) : Prop :=
  ∃ s, d !! "_id" = Some (VStr s).

(** The dates of a create request pass its check: the [end_date] parses,
    and the [start_date] is falsy or parses to a datetime for which
    [start_dt >= end_dt] is False. *)
Definition dates_accepted `{Datetime}
    (start_date : option string) (end_date : string) : Prop :=
  ∃ end_dt,
    fromisoformat (normalize_Z end_date) = Some end_dt ∧
    (truthy_param start_date = false ∨
     ∃ s start_dt,
       start_date = Some s ∧
       fromisoformat (normalize_Z s) = Some start_dt ∧
       datetime_ge start_dt end_dt = Some false).

(** The character occurs in the string. *)
Fixpoint occurs (c : ascii) (s : string) : Prop :=
  match s with
  | EmptyString => False
  | String a s' => a = c ∨ occurs c s'
  end.

(** ** A database seeded from elsewhere *)

Module Seeded.

(** A record whose [start_date] is not a timestamp, and one whose
    [end_date] carries a UTC offset. *)
Definition next_week : document :=
  <["_id" := VObjectId Example.oid1]>
    (new_announcement "Exams" (Some "next week")
       "2025-12-31T23:59:59" "mchen" "2024-12-01T08:00:00").

Definition new_year : document :=
  <["_id" := VObjectId Example.oid2]>
    (new_announcement "New year" None
       "2030-01-01T00:00:00Z" "mchen" "2024-12-02T08:00:00").

Definition db : database :=
  {| announcements_collection := [next_week; new_year];
     teachers_collection := [Example.teacher] |}.

End Seeded.

(** ** A create on the worked database *)

Module Scenario.

Definition created : document :=
  new_announcement "Welcome back" None "2030-01-01T00:00:00" "mchen"
    "2024-12-24T10:00:00".

Definition stored : document := <["_id" := VObjectId Example.oid3]> created.

Definition returned : document :=
  <["_id" := VStr "507f1f77bcf86cd799439013"]> created.

Definition after_create : database :=
  set_announcements
    (announcements_collection Example.db ++ [stored]) Example.db.

(** The store is well formed: every document has an [_id], no two the
    same. *)
Definition well_formed (db : database) : Prop :=
  ids_present db ∧ ids_unique db.

End Scenario.

(** ** A record created with a Z end date *)

Module Reachable.

Definition stored : document :=
  <["_id" := VObjectId Example.oid3]>
    (new_announcement "New year" None "2030-01-01T00:00:00Z" "mchen"
       "2024-12-24T10:00:00").

Definition returned : document :=
  <["_id" := VStr "507f1f77bcf86cd799439013"]>
    (new_announcement "New year" None "2030-01-01T00:00:00Z" "mchen"
       "2024-12-24T10:00:00").

Definition after_create : database :=
  set_announcements
    (announcements_collection Example.db ++ [stored]) Example.db.

End Reachable.

(** ** The monad *)

Lemma bind_Return {A B} (m : M A) (k : A → M B) db a db' :
  m db = (Return a, db') → bind m k db = k a db'.
Proof. unfold bind. by intros ->. Qed.

Lemma bind_Raise {A B} (m : M A) (k : A → M B) db e db' :
  m db = (Raise e, db') → bind m k db = (Raise e, db').
Proof. unfold bind. by intros ->. Qed.

Lemma try_except_Return {A} (m : M A) c h db a db' :
  m db = (Return a, db') → try_except m c h db = (Return a, db').
Proof. unfold try_except. by intros ->. Qed.

Lemma try_except_caught {A} (m : M A) c h db e db' :
  m db = (Raise e, db') → c e = true → try_except m c h db = h db'.
Proof. unfold try_except. by intros -> ->. Qed.

Lemma try_except_uncaught {A} (m : M A) c h db e db' :
  m db = (Raise e, db') → c e = false → try_except m c h db = (Raise e, db').
Proof. unfold try_except. by intros -> ->. Qed.

Lemma never_401_ret {A} (a : A) : never_401 (ret a).
Proof. intros db e db' [=]. Qed.

Lemma never_401_raise {A} e : ¬ is_401 e → never_401 (@raise A e).
Proof. intros He db e' db' [= <- _]. exact He. Qed.

Lemma never_401_bind {A B} (m : M A) (k : A → M B) :
  never_401 m → (∀ a, never_401 (k a)) → never_401 (bind m k).
Proof.
  intros Hm Hk db e db'. unfold bind.
  destruct (m db) as [[a|e0] db0] eqn:E.
  - apply Hk.
  - intros [= <- <-]. by eapply Hm.
Qed.

Lemma never_401_try_except {A} (m : M A) c h :
  never_401 m → never_401 h → never_401 (try_except m c h).
Proof.
  intros Hm Hh db e db'. unfold try_except.
  destruct (m db) as [[a|e0] db0] eqn:E; [intros [=]|].
  destruct (c e0).
  - apply Hh.
  - intros [= <- <-]. by eapply Hm.
Qed.

Lemma never_401_lift_option {A} e (o : option A) :
  ¬ is_401 e → never_401 (lift_option e o).
Proof.
  intros He. destruct o; [apply never_401_ret | by apply never_401_raise].
Qed.

Lemma never_401_for_each {A B} (f : A → M B) l :
  (∀ x, never_401 (f x)) → never_401 (for_each f l).
Proof.
  intros Hf. induction l as [|x l IH]; simpl.
  - apply never_401_ret.
  - apply never_401_bind; [apply Hf|intros y].
    apply never_401_bind; [apply IH|intros ys]. apply never_401_ret.
Qed.

Lemma not_401_code code detail : code ≠ 401 → ¬ is_401 (HTTPException code detail).
Proof. intros Hc [d [= ? _]]. done. Qed.

Ltac not_401 :=
  solve [ apply not_401_code; lia | intros [? [=]] ].

Ltac never_401_step :=
  first
    [ apply never_401_ret
    | apply never_401_raise; not_401
    | apply never_401_lift_option; not_401
    | apply never_401_bind; [|intros ?]
    | apply never_401_try_except
    | apply never_401_for_each; intros ?
    | match goal with
      | |- never_401 (if ?b then _ else _) => destruct b
      | |- never_401 (match ?x with _ => _ end) => destruct x
      end ].

(** ** The store *)

Lemma find_all c : find Q_all c = c.
Proof.
  unfold find. induction c as [|d c IH]; [done|].
  rewrite filter_cons_True by done. by rewrite IH.
Qed.

Lemma find_one_Some q c d :
  find_one q c = Some d → d ∈ c ∧ matches q d = true.
Proof.
  unfold find_one, find. intros Hd%head_Some_elem_of.
  apply list_elem_of_filter in Hd. tauto.
Qed.

Lemma find_one_None q c :
  find_one q c = None ↔ ∀ d, d ∈ c → matches q d = false.
Proof.
  unfold find_one, find. rewrite head_None. split.
  - intros Hnil d Hd. destruct (matches q d) eqn:E; [|done].
    exfalso. eapply filter_nil_not_elem_of; [exact Hnil| |exact Hd]. done.
  - intros Hall. induction c as [|d c IH]; [done|].
    rewrite filter_cons_False.
    + apply IH. intros d' Hd'. apply Hall. by right.
    + rewrite Hall; [done|by left].
Qed.

Lemma find_one_is_Some q c d :
  d ∈ c → matches q d = true → is_Some (find_one q c).
Proof.
  intros Hd Hm. destruct (find_one q c) eqn:E; [by eexists|].
  rewrite find_one_None in E. rewrite (E d Hd) in Hm. done.
Qed.

Lemma matches_eq_Some f v d :
  v ≠ VNone → matches (Q_eq f v) d = true ↔ d !! f = Some v.
Proof.
  intros Hv. simpl. rewrite bool_decide_eq_true. unfold dict_get.
  destruct (d !! f) as [w|]; simpl; split; congruence.
Qed.

(** ** The authorization gate *)

Lemma truthy_param_Some p :
  truthy_param p = true ↔ ∃ u, p = Some u ∧ u ≠ "".
Proof.
  destruct p as [u|]; simpl.
  - rewrite negb_true_iff, String.eqb_neq. split; [eauto|].
    by intros (? & [= <-] & ?).
  - split; [done|]. by intros (? & [=] & _).
Qed.

Lemma gate_pass db teacher_username :
  authorized db teacher_username →
  ∃ u, teacher_username = Some u ∧
       check_teacher_authentication teacher_username db = (Return u, db).
Proof.
  intros (u & -> & Hu & t & Ht & Hid). exists u. split; [done|].
  unfold check_teacher_authentication.
  assert (truthy_param (Some u) = true) as -> by (apply truthy_param_Some; eauto).
  simpl. unfold bind, teachers_find_one.
  destruct (find_one_is_Some (Q_eq "_id" (VStr u)) (teachers_collection db) t Ht)
    as [t' Ht']; [by apply matches_eq_Some|].
  rewrite Ht'. apply find_one_Some in Ht' as [_ Hm].
  apply matches_eq_Some in Hm; [|done].
  simpl. rewrite bool_decide_eq_false_2; [done|].
  intros ->. by rewrite lookup_empty in Hm.
Qed.

Lemma gate_fail db teacher_username :
  ¬ authorized db teacher_username →
  ∃ e, is_401 e ∧
       check_teacher_authentication teacher_username db = (Raise e, db).
Proof.
  intros Hna. unfold check_teacher_authentication.
  destruct (truthy_param teacher_username) eqn:Ep; simpl.
  - apply truthy_param_Some in Ep as (u & -> & Hu). simpl.
    unfold bind, teachers_find_one.
    destruct (find_one _ _) as [t|] eqn:Ef; simpl.
    + apply find_one_Some in Ef as [Ht Hm].
      apply matches_eq_Some in Hm; [|done].
      destruct Hna. exists u. eauto 10.
    + eexists. split; [|done]. by eexists.
  - eexists. split; [|done]. by eexists.
Qed.

Lemma gate_Return db teacher_username u db' :
  check_teacher_authentication teacher_username db = (Return u, db') →
  authorized db teacher_username.
Proof.
  unfold check_teacher_authentication.
  destruct (truthy_param teacher_username) eqn:Ep; simpl; [|done].
  apply truthy_param_Some in Ep as (u' & -> & Hu'). simpl.
  unfold bind, teachers_find_one.
  destruct (find_one _ _) as [t|] eqn:Ef; simpl; [|done].
  intros _. apply find_one_Some in Ef as [Ht Hm].
  apply matches_eq_Some in Hm; [|done]. exists u'. eauto 10.
Qed.

Lemma not_authorized_iff db teacher_username :
  ¬ authorized db teacher_username ↔
    teacher_username = None ∨ teacher_username = Some "" ∨
    ∃ u, teacher_username = Some u ∧
         ∀ t, t ∈ teachers_collection db → t !! "_id" ≠ Some (VStr u).
Proof.
  split.
  - intros Hna. destruct teacher_username as [u|]; [|by left].
    destruct (decide (u = "")) as [->|Hu]; [by right; left|].
    right; right. exists u. split; [done|]. intros t Ht Hid.
    apply Hna. exists u. eauto 10.
  - intros [->|[->|(u & -> & Hnone)]] (u' & [= <-] & Hu' & t & Ht & Hid);
      [done|]. by eapply Hnone.
Qed.

(** What lies behind the gate decides nothing about Unauthorized. *)
Lemma gated_unauthorized_iff {A} (rest : string → M A) db teacher_username :
  (∀ u, never_401 (rest u)) →
  unauthorized (bind (check_teacher_authentication teacher_username) rest db)
  ↔ ¬ authorized db teacher_username.
Proof.
  intros Hrest. split.
  - intros (e & He & H401) Hauth.
    destruct (gate_pass _ _ Hauth) as (u & _ & Hgate).
    rewrite (bind_Return _ _ _ _ _ Hgate) in He.
    destruct (rest u db) as [[a|e'] db'] eqn:E; simpl in He; [done|].
    injection He as ->. by eapply Hrest.
  - intros Hna. destruct (gate_fail _ _ Hna) as (e & H401 & Hgate).
    rewrite (bind_Raise _ _ _ _ _ Hgate). by exists e.
Qed.

Lemma never_401_stringify_id d : never_401 (stringify_id d).
Proof. unfold stringify_id. repeat never_401_step. Qed.

Lemma never_401_insert_one v d : never_401 (announcements_insert_one v d).
Proof.
  intros db e db'. unfold announcements_insert_one.
  destruct (find_one _ _); intros [= <- _]; intros [? [=]].
Qed.

Lemma never_401_delete_one q : never_401 (announcements_delete_one q).
Proof.
  intros db e db'. unfold announcements_delete_one.
  by destruct (delete_one _ _).
Qed.


(** ** Every stored announcement keeps its [_id] *)

Lemma preserves_ret {A} P (a : A) : preserves P (ret a).
Proof. by intros db o db' HP [= _ <-]. Qed.

Lemma preserves_raise {A} P e : preserves P (@raise A e).
Proof. by intros db o db' HP [= _ <-]. Qed.

Lemma preserves_lift_option {A} P e (o : option A) : preserves P (lift_option e o).
Proof. destruct o; [apply preserves_ret|apply preserves_raise]. Qed.

Lemma preserves_bind {A B} P (m : M A) (k : A → M B) :
  preserves P m → (∀ a, preserves P (k a)) → preserves P (bind m k).
Proof.
  intros Hm Hk db o db' HP. unfold bind.
  destruct (m db) as [[a|e] db1] eqn:E.
  - apply Hk. by eapply Hm.
  - intros [= _ <-]. by eapply Hm.
Qed.

Lemma preserves_try_except {A} P (m : M A) c h :
  preserves P m → preserves P h → preserves P (try_except m c h).
Proof.
  intros Hm Hh db o db' HP. unfold try_except.
  destruct (m db) as [[a|e] db1] eqn:E.
  - intros [= _ <-]. by eapply Hm.
  - destruct (c e); [apply Hh; by eapply Hm|].
    intros [= _ <-]. by eapply Hm.
Qed.

Lemma preserves_for_each {A B} P (f : A → M B) l :
  (∀ x, preserves P (f x)) → preserves P (for_each f l).
Proof.
  intros Hf. induction l as [|x l IH]; simpl; [apply preserves_ret|].
  apply preserves_bind; [apply Hf|intros y].
  apply preserves_bind; [apply IH|intros ys]. apply preserves_ret.
Qed.

Lemma preserves_find_one P q : preserves P (announcements_find_one q).
Proof. by intros db o db' HP [= _ <-]. Qed.

Lemma preserves_find_sorted P q key : preserves P (announcements_find_sorted q key).
Proof. by intros db o db' HP [= _ <-]. Qed.

Lemma preserves_teachers_find_one P q : preserves P (teachers_find_one q).
Proof. by intros db o db' HP [= _ <-]. Qed.

Ltac preserves_step :=
  first
    [ apply preserves_ret
    | apply preserves_raise
    | apply preserves_lift_option
    | apply preserves_find_one
    | apply preserves_find_sorted
    | apply preserves_teachers_find_one
    | apply preserves_bind; [|intros ?]
    | apply preserves_try_except
    | apply preserves_for_each; intros ?
    | match goal with
      | |- preserves _ (if ?b then _ else _) => destruct b
      | |- preserves _ (match ?x with _ => _ end) => destruct x
      end ].

Lemma preserves_gate P teacher_username :
  preserves P (check_teacher_authentication teacher_username).
Proof. unfold check_teacher_authentication. repeat preserves_step. Qed.

Lemma ids_present_insert_one new_id doc :
  preserves ids_present (announcements_insert_one new_id doc).
Proof.
  intros db o db' HP. unfold announcements_insert_one.
  destruct (find_one _ _); intros [= _ <-]; [done|].
  unfold ids_present in *. simpl. apply Forall_app. split; [done|].
  repeat constructor. unfold has_id. by rewrite lookup_insert_eq.
Qed.

Lemma ids_present_update_one q fields :
  preserves ids_present (announcements_update_one q fields).
Proof.
  intros db o db' HP [= _ <-]. unfold ids_present in *. simpl.
  induction HP as [|d c Hd HP IH]; simpl; [done|].
  destruct (matches q d); (constructor; [|done]); [|done].
  unfold has_id. apply lookup_union_is_Some. by right.
Qed.

Lemma ids_present_delete_one q :
  preserves ids_present (announcements_delete_one q).
Proof.
  intros db o db' HP. unfold announcements_delete_one.
  destruct (delete_one q (announcements_collection db)) as [n c] eqn:E.
  intros [= _ <-]. unfold ids_present in *. simpl.
  revert n c E. induction HP as [|d c0 Hd HP IH]; simpl; intros n c.
  - by intros [= _ <-].
  - destruct (matches q d); [by intros [= _ <-]|].
    destruct (delete_one q c0) as [n0 r]. intros [= _ <-].
    constructor; [done|]. by eapply IH.
Qed.


(** ** Ordering and listing *)

Global Instance bson_le_trans : Transitive bson_le.
Proof.
  intros [|a|a] [|b|b] [|c|c]; simpl; try lia; try done; apply transitivity.
Qed.

Global Instance bson_le_total : Total bson_le.
Proof.
  intros [|a|a] [|b|b]; simpl; try lia; apply String.le_total.
Qed.

Global Instance sort_rel_desc_trans key : Transitive (sort_rel_desc key).
Proof. intros d1 d2 d3 H12 H23. unfold sort_rel_desc in *. by etrans. Qed.

Global Instance sort_rel_desc_total key : Total (sort_rel_desc key).
Proof. intros d1 d2. unfold sort_rel_desc. apply bson_le_total. Qed.

Lemma sort_desc_Permutation key l : sort_desc key l ≡ₚ l.
Proof. apply merge_sort_Permutation. Qed.

Lemma sort_desc_StronglySorted key l :
  StronglySorted (sort_rel_desc key) (sort_desc key l).
Proof. apply StronglySorted_merge_sort; apply _. Qed.

Lemma dict_get_response_of key d :
  key ≠ "_id" → dict_get key (response_of d) = dict_get key d.
Proof.
  intros Hk. unfold dict_get, response_of. by rewrite lookup_insert_ne.
Qed.

Lemma stringify_id_response d db :
  has_id d → stringify_id d db = (Return (response_of d), db).
Proof.
  intros [v Hv]. unfold stringify_id, response_of, dict_get, bind.
  by rewrite Hv.
Qed.

Lemma for_each_stringify_id l db :
  Forall has_id l →
  for_each stringify_id l db = (Return (response_of <$> l), db).
Proof.
  induction 1 as [|d l Hd _ IH]; [done|]. simpl.
  rewrite (bind_Return _ _ _ _ _ (stringify_id_response d db Hd)).
  by rewrite (bind_Return _ _ _ _ _ IH).
Qed.

(** The listing shared by the two list handlers. *)
Lemma listing q db :
  Forall has_id (announcements_collection db) →
  let l := response_of <$> sort_desc "created_at" (find q (announcements_collection db)) in
  bind (announcements_find_sorted q "created_at") (for_each stringify_id) db
    = (Return l, db) ∧
  l ≡ₚ response_of <$> find q (announcements_collection db) ∧
  StronglySorted (sort_rel_desc "created_at") l.
Proof.
  intros Hid l. split; [|split].
  - unfold bind, announcements_find_sorted. apply for_each_stringify_id.
    rewrite Forall_forall in Hid |- *. intros d Hd. apply Hid.
    rewrite sort_desc_Permutation in Hd.
    unfold find in Hd. apply list_elem_of_filter in Hd. tauto.
  - unfold l. by rewrite sort_desc_Permutation.
  - unfold l. eapply StronglySorted_fmap; [|apply sort_desc_StronglySorted].
    intros d1 d2. unfold sort_rel_desc.
    by rewrite !dict_get_response_of.
Qed.

(** The filter of the handler selects the active announcements. *)
Lemma active_query_is_active now a :
  matches (active_query now) a = true ↔ is_active now a.
Proof.
  unfold is_active, dict_get. simpl. unfold dict_get.
  rewrite !andb_true_iff, !orb_true_iff, !andb_true_iff, !bool_decide_eq_true.
  destruct (a !! "end_date") as [[|e|o]|], (a !! "start_date") as [[|s|o']|];
    simpl; intuition (try done; try lia; try congruence).
Qed.

Lemma is_active_response_of now a :
  is_active now (response_of a) ↔ is_active now a.
Proof. unfold is_active, response_of. by rewrite !lookup_insert_ne. Qed.

(** C2. list-active returns exactly the announcements whose [end_date]
    is not before the current time and whose [start_date] is absent, null
    or not after it, comparing the stored strings bytewise: every record
    returned is active, every active stored record is returned, each as
    often as it is stored; nothing in the store changes. *)
Theorem C2_list_active_exactly_active db now :
  Forall has_id (announcements_collection db) →
  ∃ l, get_active_announcements now db = (Return l, db) ∧
       l ≡ₚ response_of <$> filter (is_active now) (announcements_collection db) ∧
       (∀ r, r ∈ l → is_active now r) ∧
       (∀ a, a ∈ announcements_collection db → is_active now a →
             response_of a ∈ l).
Proof.
  intros Hid. destruct (listing (active_query now) db Hid) as (Hrun & Hperm & _).
  assert (find (active_query now) (announcements_collection db)
          = filter (is_active now) (announcements_collection db)) as Hfind.
  { unfold find. apply list_filter_iff. intros a. apply active_query_is_active. }
  rewrite Hfind in Hrun, Hperm.
  eexists. split; [exact Hrun|]. split; [exact Hperm|]. split.
  - intros r Hr. rewrite Hperm in Hr.
    apply list_elem_of_fmap in Hr as (a & -> & Ha).
    apply list_elem_of_filter in Ha as [Ha _]. by apply is_active_response_of.
  - intros a Ha Hact. rewrite Hperm. apply list_elem_of_fmap.
    exists a. split; [done|]. by apply list_elem_of_filter.
Qed.

(** C9. list-active and, for an authorized requester, list-all return
    their results in descending order of [created_at]; list-active
    returns the active announcements and list-all every stored one. *)
Theorem C9_lists_sorted_by_created_at_desc db now teacher_username :
  Forall has_id (announcements_collection db) →
  (∃ l, get_active_announcements now db = (Return l, db) ∧
        StronglySorted (sort_rel_desc "created_at") l ∧
        l ≡ₚ response_of <$> filter (is_active now) (announcements_collection db)) ∧
  (authorized db teacher_username →
   ∃ l, get_all_announcements teacher_username db = (Return l, db) ∧
        StronglySorted (sort_rel_desc "created_at") l ∧
        l ≡ₚ response_of <$> announcements_collection db).
Proof.
  intros Hid. split.
  - destruct (listing (active_query now) db Hid) as (Hrun & Hperm & Hsorted).
    assert (find (active_query now) (announcements_collection db)
            = filter (is_active now) (announcements_collection db)) as Hfind.
    { unfold find. apply list_filter_iff. intros a. apply active_query_is_active. }
    rewrite Hfind in Hrun, Hperm, Hsorted. eauto.
  - intros Hauth. destruct (gate_pass _ _ Hauth) as (u & _ & Hgate).
    destruct (listing Q_all db Hid) as (Hrun & Hperm & Hsorted).
    eexists. split; [|split; [exact Hsorted|]].
    + unfold get_all_announcements.
      rewrite (bind_Return _ _ _ _ _ Hgate). exact Hrun.
    + by rewrite Hperm, find_all.
Qed.

(** ** Identifiers *)

Lemma ObjectId_Some s oid : ObjectId s = Some oid → ∃ b, oid = VObjectId b.
Proof.
  unfold ObjectId. destruct (_ =? _)%nat; [|done].
  destruct (bytes_fromhex s) as [b|]; [|done]. intros [= <-]. eauto.
Qed.

Lemma unused_id_find_one oid db :
  oid ≠ VNone →
  unused_id oid db ↔ find_one (Q_eq "_id" oid) (announcements_collection db) = None.
Proof.
  intros Hoid. rewrite find_one_None. unfold unused_id.
  split; intros Hu d Hd; specialize (Hu d Hd).
  - destruct (matches _ d) eqn:E; [|done]. by apply matches_eq_Some in E.
  - intros Hm%(matches_eq_Some _ _ _ Hoid). congruence.
Qed.

Lemma truthy_doc_found f v c d :
  v ≠ VNone → find_one (Q_eq f v) c = Some d → truthy_doc (Some d) = true.
Proof.
  intros Hv [_ Hm%(matches_eq_Some _ _ _ Hv)]%find_one_Some. simpl.
  rewrite bool_decide_eq_false_2; [done|]. intros ->. by rewrite lookup_empty in Hm.
Qed.

Lemma delete_one_none q c :
  find_one q c = None → delete_one q c = (0%nat, c).
Proof.
  rewrite find_one_None. induction c as [|d c IH]; [done|]. intros Hall. simpl.
  rewrite (Hall d) by (by left). rewrite IH; [done|].
  intros d' Hd'. apply Hall. by right.
Qed.

Lemma set_announcements_id db : set_announcements (announcements_collection db) db = db.
Proof. by destruct db. Qed.

Lemma gate_cases db teacher_username :
  (authorized db teacher_username ∧
   ∃ u, teacher_username = Some u ∧
        check_teacher_authentication teacher_username db = (Return u, db)) ∨
  (¬ authorized db teacher_username ∧
   ∃ e, is_401 e ∧
        check_teacher_authentication teacher_username db = (Raise e, db)).
Proof.
  destruct (check_teacher_authentication teacher_username db) as [[u|e] db1] eqn:E.
  - left. pose proof (gate_Return _ _ _ _ E) as Hauth. split; [done|].
    destruct (gate_pass _ _ Hauth) as (u' & ? & Hu').
    rewrite E in Hu'. injection Hu' as -> ->. by exists u'.
  - right. assert (¬ authorized db teacher_username) as Hna.
    { intros Hauth. destruct (gate_pass _ _ Hauth) as (u' & _ & Hu'). congruence. }
    split; [done|]. destruct (gate_fail _ _ Hna) as (e' & ? & He').
    rewrite E in He'. injection He' as -> ->. by exists e'.
Qed.

Lemma new_announcement_lookup message start_date end_date u now :
  let a := new_announcement message start_date end_date u now in
  a !! "message" = Some (VStr message) ∧
  a !! "start_date" = Some (value_of_param start_date) ∧
  a !! "end_date" = Some (VStr end_date) ∧
  a !! "created_by" = Some (VStr u) ∧
  a !! "created_at" = Some (VStr now) ∧
  a !! "_id" = None.
Proof. unfold new_announcement. by repeat split. Qed.

Lemma empty_string_le s : ("" ≤ s)%string.
Proof. by destruct s. Qed.

(** *** updating in place *)

Lemma find_one_split q c a :
  find_one q c = Some a →
  ∃ l1 l2, c = (l1 ++ a :: l2)%list ∧
           Forall (λ d, matches q d = false) l1 ∧ matches q a = true.
Proof.
  induction c as [|d c IH]; [done|]. unfold find_one, find.
  destruct (matches q d) eqn:E.
  - rewrite filter_cons_True by done. intros [= <-].
    exists [], c. by repeat split.
  - rewrite filter_cons_False by (by rewrite E). intros Hf.
    destruct (IH Hf) as (l1 & l2 & -> & Hl1 & Ha).
    exists (d :: l1), l2. repeat split; [|done]. by constructor.
Qed.

Lemma find_one_first q l1 a l2 :
  Forall (λ d, matches q d = false) l1 → matches q a = true →
  find_one q (l1 ++ a :: l2) = Some a.
Proof.
  intros Hl1 Ha. unfold find_one, find.
  induction Hl1 as [|d l1 Hd _ IH]; simpl.
  - by rewrite filter_cons_True.
  - rewrite filter_cons_False by (by rewrite Hd). exact IH.
Qed.

Lemma update_one_set_first q fields l1 a l2 :
  Forall (λ d, matches q d = false) l1 → matches q a = true →
  update_one_set q fields (l1 ++ a :: l2) = (l1 ++ (fields ∪ a) :: l2)%list.
Proof.
  intros Hl1 Ha.
  induction Hl1 as [|d l1 Hd _ IH]; simpl.
  - by rewrite Ha.
  - by rewrite Hd, IH.
Qed.

Lemma update_one_set_empty q c : update_one_set q ∅ c = c.
Proof.
  induction c as [|d c IH]; [done|]. simpl.
  destruct (matches q d); [by rewrite (left_id_L ∅ (∪))|by rewrite IH].
Qed.

Lemma update_fields_of_lookup message end_date start_date k :
  update_fields_of message end_date start_date !! k =
    if decide (k = "start_date") then start_date_value <$> start_date
    else if decide (k = "end_date") then VStr <$> end_date
    else if decide (k = "message") then VStr <$> message
    else None.
Proof.
  unfold update_fields_of.
  destruct message, end_date, start_date; simpl;
    repeat (rewrite lookup_insert; case_decide; simplify_eq);
    rewrite ?lookup_empty; repeat case_decide; by simplify_eq.
Qed.

Lemma final_start_date_get message end_date start_date a :
  dict_get_default "start_date" (dict_get "start_date" a)
    (update_fields_of message end_date start_date)
  = final_start_date start_date a.
Proof.
  unfold dict_get_default. rewrite update_fields_of_lookup.
  by destruct start_date.
Qed.

Lemma final_end_date_get message end_date start_date a :
  dict_get_default "end_date" (dict_get "end_date" a)
    (update_fields_of message end_date start_date)
  = final_end_date end_date a.
Proof.
  unfold dict_get_default. rewrite update_fields_of_lookup.
  by destruct end_date.
Qed.

Lemma response_of_insert_id oid (a : document) :
  response_of (<["_id" := oid]> a) = <["_id" := VStr (py_str oid)]> a.
Proof.
  unfold response_of, dict_get. rewrite lookup_insert_eq. simpl.
  by rewrite insert_insert_eq.
Qed.

Lemma is_active_empty_start t v message end_date u now :
  is_active t (<["_id" := v]> (new_announcement message (Some "") end_date u now))
  ↔ (t ≤ end_date)%string.
Proof.
  unfold is_active. rewrite !lookup_insert_ne by done.
  destruct (new_announcement_lookup message (Some "") end_date u now)
    as (_ & -> & -> & _).
  simpl. split; [tauto|]. split; [done|]. apply empty_string_le.
Qed.

Section Properties.
Context `{Datetime}.

Lemma never_401_build_update_fields message end_date start_date :
  never_401 (build_update_fields message end_date start_date).
Proof.
  unfold build_update_fields, py_fromisoformat. repeat never_401_step.
Qed.

Lemma never_401_validate_date_logic update_fields announcement :
  never_401 (validate_date_logic update_fields announcement).
Proof.
  unfold validate_date_logic, py_normalize_Z, py_fromisoformat, py_datetime_ge.
  repeat never_401_step.
Qed.

(** C1. Each privileged operation (list-all, create, update, delete)
    answers Unauthorized (401) exactly when the requester is not
    authorized, that is when the user name is absent or empty or no
    teacher record has exactly that identifier; an authorized requester
    passes the gate, whatever else the teacher record holds. *)
Theorem C1_unauthorized_iff db teacher_username :
  (unauthorized (get_all_announcements teacher_username db)
     ↔ ¬ authorized db teacher_username) ∧
  (∀ message end_date start_date now inserted_id,
     unauthorized (create_announcement message end_date start_date
                     teacher_username now inserted_id db)
     ↔ ¬ authorized db teacher_username) ∧
  (∀ announcement_id message end_date start_date,
     unauthorized (update_announcement announcement_id message end_date
                     start_date teacher_username db)
     ↔ ¬ authorized db teacher_username) ∧
  (∀ announcement_id,
     unauthorized (delete_announcement announcement_id teacher_username db)
     ↔ ¬ authorized db teacher_username) ∧
  (authorized db teacher_username ↔
     ∃ u, check_teacher_authentication teacher_username db = (Return u, db)) ∧
  (¬ authorized db teacher_username ↔
     teacher_username = None ∨ teacher_username = Some "" ∨
     ∃ u, teacher_username = Some u ∧
          ∀ t, t ∈ teachers_collection db → t !! "_id" ≠ Some (VStr u)).
Proof.
  split; [|split; [|split; [|split; [|split; [split|]]]]];
    [..|apply not_authorized_iff].
  - apply gated_unauthorized_iff. intros u. cbv beta.
    apply never_401_bind; [intros ? ? ? [=]|intros ?].
    apply never_401_for_each, never_401_stringify_id.
  - intros message end_date start_date now inserted_id.
    apply gated_unauthorized_iff. intros u. cbv beta.
    unfold py_fromisoformat, py_datetime_ge.
    apply never_401_bind; [repeat never_401_step|intros ?].
    apply never_401_bind; [apply never_401_insert_one|intros ?].
    apply never_401_ret.
  - intros announcement_id message end_date start_date.
    apply gated_unauthorized_iff. intros u. cbv beta.
    apply never_401_bind.
    { apply never_401_try_except; [|repeat never_401_step].
      unfold py_ObjectId. apply never_401_bind; [repeat never_401_step|].
      intros ? ? ? ? [=]. }
    intros a. destruct (negb (truthy_doc a)); [repeat never_401_step|].
    apply never_401_bind; [apply never_401_build_update_fields|intros ?].
    apply never_401_bind; [apply never_401_validate_date_logic|intros ?].
    unfold py_ObjectId.
    apply never_401_bind.
    { destruct (negb _); [|repeat never_401_step].
      apply never_401_bind; [repeat never_401_step|]. intros ? ? ? ? [=]. }
    intros ?. apply never_401_bind; [repeat never_401_step|intros ?].
    apply never_401_bind; [intros ? ? ? [=]|intros [d|]].
    + apply never_401_stringify_id.
    + repeat never_401_step.
  - intros announcement_id.
    apply gated_unauthorized_iff. intros u. cbv beta.
    apply never_401_bind.
    { apply never_401_try_except; [|repeat never_401_step].
      unfold py_ObjectId. apply never_401_bind; [repeat never_401_step|].
      intros ?. apply never_401_delete_one. }
    intros n. repeat never_401_step.
  - intros Hauth. destruct (gate_pass _ _ Hauth) as (u & _ & Hu). eauto.
  - intros [u Hu]. by eapply gate_Return.
Qed.


Lemma parses_nonempty s d :
  fromisoformat (normalize_Z s) = Some d → truthy_param (Some s) = true.
Proof.
  intros Hs. destruct s; [|done].
  change (normalize_Z "") with "" in Hs. by rewrite fromisoformat_empty in Hs.
Qed.

(** Whatever a handler answers, every stored announcement still has its
    [_id] afterwards: the premise of the listing theorems holds in every
    state the handlers reach. *)
Lemma handlers_keep_ids :
  (∀ now, preserves ids_present (get_active_announcements now)) ∧
  (∀ teacher_username,
     preserves ids_present (get_all_announcements teacher_username)) ∧
  (∀ message end_date start_date teacher_username now inserted_id,
     preserves ids_present
       (create_announcement message end_date start_date teacher_username
          now inserted_id)) ∧
  (∀ announcement_id message end_date start_date teacher_username,
     preserves ids_present
       (update_announcement announcement_id message end_date start_date
          teacher_username)) ∧
  (∀ announcement_id teacher_username,
     preserves ids_present (delete_announcement announcement_id teacher_username)).
Proof.
  split; [|split; [|split; [|split]]]; intros.
  - unfold get_active_announcements, stringify_id. repeat preserves_step.
  - unfold get_all_announcements, stringify_id.
    apply preserves_bind; [apply preserves_gate|intros ?].
    repeat preserves_step.
  - unfold create_announcement, py_fromisoformat, py_datetime_ge.
    apply preserves_bind; [apply preserves_gate|intros ?].
    apply preserves_bind; [repeat preserves_step|intros ?].
    apply preserves_bind; [apply ids_present_insert_one|intros ?].
    apply preserves_ret.
  - unfold update_announcement, build_update_fields, validate_date_logic,
      py_ObjectId, py_fromisoformat, py_datetime_ge, py_normalize_Z, stringify_id.
    apply preserves_bind; [apply preserves_gate|intros ?].
    apply preserves_bind; [repeat preserves_step|intros found].
    destruct (negb (truthy_doc found)); [apply preserves_raise|].
    apply preserves_bind; [repeat preserves_step|intros ?].
    apply preserves_bind; [repeat preserves_step|intros ?].
    apply preserves_bind.
    { destruct (negb _); [|apply preserves_ret].
      apply preserves_bind; [apply preserves_lift_option|intros ?].
      apply ids_present_update_one. }
    intros ?. repeat preserves_step.
  - unfold delete_announcement, py_ObjectId.
    apply preserves_bind; [apply preserves_gate|intros ?].
    apply preserves_bind.
    { apply preserves_try_except; [|apply preserves_raise].
      apply preserves_bind; [apply preserves_lift_option|intros ?].
      apply ids_present_delete_one. }
    intros ?. repeat preserves_step.
Qed.

(** *** create *)

Lemma create_announcement_bad_end_date
    db message end_date start_date teacher_username now inserted_id :
  authorized db teacher_username →
  fromisoformat (normalize_Z end_date) = None →
  ∃ detail,
    create_announcement message end_date start_date teacher_username
      now inserted_id db = (Raise (HTTPException 400 detail), db).
Proof.
  intros (u & _ & Hgate)%gate_pass Hend. unfold create_announcement.
  rewrite (bind_Return _ _ _ _ _ Hgate).
  unfold bind, try_except, py_fromisoformat, lift_option, raise.
  rewrite Hend. simpl. eauto.
Qed.

Lemma create_announcement_start_not_before_end
    db message end_date s teacher_username now inserted_id start_dt end_dt :
  authorized db teacher_username →
  fromisoformat (normalize_Z s) = Some start_dt →
  fromisoformat (normalize_Z end_date) = Some end_dt →
  datetime_ge start_dt end_dt = Some true →
  ∃ detail,
    create_announcement message end_date (Some s) teacher_username
      now inserted_id db = (Raise (HTTPException 400 detail), db).
Proof.
  intros (u & _ & Hgate)%gate_pass Hs Hend Hge. unfold create_announcement.
  rewrite (bind_Return _ _ _ _ _ Hgate).
  unfold bind, try_except, py_fromisoformat, py_datetime_ge, lift_option,
    raise, ret.
  rewrite Hend, (parses_nonempty _ _ Hs). simpl. rewrite Hs, Hge. simpl. eauto.
Qed.

(** A create whose dates pass the check stores the dictionary it built
    under the generated identifier and returns it with that identifier
    as a string. *)
Lemma create_announcement_success
    db message end_date start_date u now inserted_id end_dt :
  authorized db (Some u) →
  fromisoformat (normalize_Z end_date) = Some end_dt →
  (truthy_param start_date = false ∨
   ∃ s start_dt, start_date = Some s ∧
     fromisoformat (normalize_Z s) = Some start_dt ∧
     datetime_ge start_dt end_dt = Some false) →
  unused_id (VObjectId inserted_id) db →
  let a := new_announcement message start_date end_date u now in
  create_announcement message end_date start_date (Some u) now inserted_id db
  = (Return (<["_id" := VStr (hexlify inserted_id)]> a),
     set_announcements
       (announcements_collection db ++ [<["_id" := VObjectId inserted_id]> a])
       db).
Proof.
  intros (u' & [= <-] & Hgate)%gate_pass Hend Hstart Hunused a.
  unfold create_announcement.
  rewrite (bind_Return _ _ _ _ _ Hgate).
  apply unused_id_find_one in Hunused; [|done].
  unfold bind, try_except, py_fromisoformat, py_datetime_ge, lift_option,
    raise, ret, announcements_insert_one.
  rewrite Hend.
  destruct Hstart as [->|(s & start_dt & -> & Hs & Hge)].
  - simpl. by rewrite Hunused.
  - rewrite (parses_nonempty _ _ Hs). simpl. rewrite Hs, Hge. simpl.
    by rewrite Hunused.
Qed.

(** A create that raises, for whatever reason, persists nothing. *)
Lemma create_announcement_Raise_unchanged
    db message end_date start_date teacher_username now inserted_id e db' :
  create_announcement message end_date start_date teacher_username
    now inserted_id db = (Raise e, db') →
  db' = db.
Proof.
  unfold create_announcement.
  destruct (gate_cases db teacher_username)
    as [(_ & u & _ & Hgate)|(_ & e' & _ & Hgate)].
  2: { rewrite (bind_Raise _ _ _ _ _ Hgate). congruence. }
  rewrite (bind_Return _ _ _ _ _ Hgate).
  unfold bind, try_except, py_fromisoformat, py_datetime_ge, lift_option,
    raise, ret, announcements_insert_one.
  intros Hrun. by repeat (case_match; simplify_eq/=).
Qed.

(** Where the comparison of the two dates is defined: a create whose
    [end_date] does not parse (after the Z normalisation), or whose
    supplied [start_date] parses to a datetime [start_dt] for which
    [start_dt >= end_dt] is True, fails and persists nothing; for an
    authorized requester the failure is InvalidArgument (400), for any
    other it is the gate's Unauthorized (401).  A pair of dates on which
    [>=] itself raises is not covered: see
    [create_announcement_incomparable]. *)
Theorem create_invalid_dates_400_where_comparable
    db message end_date start_date teacher_username now inserted_id :
  (fromisoformat (normalize_Z end_date) = None ∨
   ∃ s start_dt end_dt,
     start_date = Some s ∧
     fromisoformat (normalize_Z s) = Some start_dt ∧
     fromisoformat (normalize_Z end_date) = Some end_dt ∧
     datetime_ge start_dt end_dt = Some true) →
  ∃ e,
    create_announcement message end_date start_date teacher_username
      now inserted_id db = (Raise e, db) ∧
    (authorized db teacher_username → is_400 e) ∧
    (¬ authorized db teacher_username → is_401 e).
Proof.
  intros Hdates.
  destruct (gate_cases db teacher_username)
    as [[Hauth _]|(Hna & e & H401 & Hgate)].
  - assert (∃ detail,
      create_announcement message end_date start_date teacher_username
        now inserted_id db = (Raise (HTTPException 400 detail), db))
      as [detail Hrun].
    { destruct Hdates as [Hend|(s & start_dt & end_dt & -> & Hs & Hend & Hge)].
      - by apply create_announcement_bad_end_date.
      - by eapply create_announcement_start_not_before_end. }
    eexists. split; [exact Hrun|]. split; [by eexists|done].
  - exists e. split; [|by split].
    unfold create_announcement. by rewrite (bind_Raise _ _ _ _ _ Hgate).
Qed.

(** C10. An authorized create with a parseable [end_date] and
    [start_date=""] succeeds whatever the dates compare to: the empty
    string is falsy and is not parsed (it would not parse).  The record
    persisted holds the empty string itself as [start_date], and
    list-active's filter selects that record at a time [t] exactly when
    [t] is not after the stored [end_date]: the empty string is not
    after any time.  So list-active, run on the store after the create,
    returns the created record at exactly those times. *)
Theorem C10_create_empty_start_date
    db message end_date teacher_username now inserted_id end_dt :
  authorized db teacher_username →
  fromisoformat (normalize_Z end_date) = Some end_dt →
  unused_id (VObjectId inserted_id) db →
  ∃ returned stored db',
    create_announcement message end_date (Some "") teacher_username
      now inserted_id db = (Return returned, db') ∧
    announcements_collection db' = (announcements_collection db ++ [stored])%list ∧
    stored !! "start_date" = Some (VStr "") ∧
    returned !! "start_date" = Some (VStr "") ∧
    fromisoformat (normalize_Z "") = None ∧
    (∀ t, matches (Q_lte "start_date" (VStr t)) stored = true ∧
          (matches (active_query t) stored = true ↔ (t ≤ end_date)%string)) ∧
    (Forall has_id (announcements_collection db) →
     ∀ t, ∃ l, get_active_announcements t db' = (Return l, db') ∧
               (returned ∈ l ↔ (t ≤ end_date)%string)).
Proof.
  intros Hauth Hend Hunused.
  destruct Hauth as (u & -> & Hauth).
  assert (authorized db (Some u)) as Hauth' by (exists u; eauto).
  pose proof (create_announcement_success db message end_date (Some "") u now
                inserted_id end_dt Hauth' Hend (or_introl eq_refl) Hunused)
    as Hrun.
  simpl in Hrun. eexists _, _, _. split; [exact Hrun|].
  split; [done|]. split; [done|]. split; [done|].
  split; [apply fromisoformat_empty|]. split.
  - intros t. split.
    + simpl. apply andb_true_iff. split; apply bool_decide_eq_true; [done|].
      apply empty_string_le.
    + rewrite active_query_is_active. apply is_active_empty_start.
  - intros Hids t.
    set (a := new_announcement message (Some "") end_date u now).
    set (db' := set_announcements
                  (announcements_collection db
                     ++ [<["_id" := VObjectId inserted_id]> a]) db).
    assert (Forall has_id (announcements_collection db')) as Hids'.
    { simpl. apply Forall_app. split; [done|]. repeat constructor.
      unfold has_id. by rewrite lookup_insert_eq. }
    destruct (listing (active_query t) db' Hids') as (Hlist & Hperm & _).
    assert (find (active_query t) (announcements_collection db')
            = filter (is_active t) (announcements_collection db')) as Hfind.
    { unfold find. apply list_filter_iff. intros d. apply active_query_is_active. }
    rewrite Hfind in Hlist, Hperm.
    eexists. split; [exact Hlist|]. rewrite Hperm. split.
    + intros (d & Hd & Hin)%list_elem_of_fmap.
      apply list_elem_of_filter in Hin as [Hact _].
      apply is_active_response_of in Hact. rewrite <- Hd in Hact.
      by apply (is_active_empty_start t (VStr (hexlify inserted_id))) in Hact.
    + intros Hle. apply list_elem_of_fmap.
      exists (<["_id" := VObjectId inserted_id]> a).
      split; [by rewrite response_of_insert_id|].
      apply list_elem_of_filter. split; [by apply is_active_empty_start|].
      simpl. apply elem_of_app. right. by left.
Qed.

(** *** identifiers of update and delete *)

Lemma update_announcement_invalid_id
    db announcement_id message end_date start_date teacher_username :
  authorized db teacher_username →
  ObjectId announcement_id = None →
  ∃ detail,
    update_announcement announcement_id message end_date start_date
      teacher_username db = (Raise (HTTPException 400 detail), db).
Proof.
  intros (u & _ & Hgate)%gate_pass Hid. unfold update_announcement.
  rewrite (bind_Return _ _ _ _ _ Hgate).
  unfold bind, try_except, py_ObjectId, lift_option, raise.
  rewrite Hid. simpl. eauto.
Qed.

Lemma update_announcement_not_found
    db announcement_id message end_date start_date teacher_username oid :
  authorized db teacher_username →
  ObjectId announcement_id = Some oid →
  unused_id oid db →
  ∃ detail,
    update_announcement announcement_id message end_date start_date
      teacher_username db = (Raise (HTTPException 404 detail), db).
Proof.
  intros (u & _ & Hgate)%gate_pass Hid Hunused. unfold update_announcement.
  rewrite (bind_Return _ _ _ _ _ Hgate).
  destruct (ObjectId_Some _ _ Hid) as [b ->].
  apply unused_id_find_one in Hunused; [|done].
  unfold bind, try_except, py_ObjectId, lift_option, raise, ret,
    announcements_find_one.
  rewrite Hid. simpl. rewrite Hunused. simpl. eauto.
Qed.

(** *** update *)

Lemma build_update_fields_run message end_date start_date db :
  ((∀ e, end_date = Some e → parses e) ∧
   (∀ s, start_date = Some s → s ≠ "" → parses s) ∧
   build_update_fields message end_date start_date db
   = (Return (update_fields_of message end_date start_date), db)) ∨
  (∃ e, is_400 e ∧
        build_update_fields message end_date start_date db = (Raise e, db)).
Proof.
  unfold build_update_fields, update_fields_of, start_date_value, parses,
    bind, try_except, py_fromisoformat, lift_option, raise, ret.
  destruct end_date as [e|]; [destruct (fromisoformat (normalize_Z e)) eqn:Ee|];
    simpl; try (right; eexists; split; [by eexists|done]);
    (destruct start_date as [s|];
       [destruct (String.eqb_spec s "") as [->|Hs];
          [|destruct (fromisoformat (normalize_Z s)) eqn:Es]|]);
    simpl; try (right; eexists; split; [by eexists|done]);
    left; (split; [|split; [|done]]); intros ? [= <-]; try done; by eexists.
Qed.

Lemma validate_date_logic_pure update_fields a db o db' :
  validate_date_logic update_fields a db = (o, db') → db' = db.
Proof.
  unfold validate_date_logic, bind, try_except, py_normalize_Z,
    py_fromisoformat, py_datetime_ge, lift_option, raise, ret.
  intros Hrun. by repeat (case_match; simplify_eq/=).
Qed.

Lemma truthy_parses s d :
  fromisoformat (normalize_Z s) = Some d → truthy (VStr s) = true.
Proof. apply parses_nonempty. Qed.

Lemma validate_date_logic_not_before update_fields a db s e start_dt end_dt :
  dict_get_default "start_date" (dict_get "start_date" a) update_fields = VStr s →
  dict_get_default "end_date" (dict_get "end_date" a) update_fields = VStr e →
  fromisoformat (normalize_Z s) = Some start_dt →
  fromisoformat (normalize_Z e) = Some end_dt →
  datetime_ge start_dt end_dt = Some true →
  ∃ detail,
    validate_date_logic update_fields a db
    = (Raise (HTTPException 400 detail), db).
Proof.
  intros Hfs Hfe Hs He Hge. unfold validate_date_logic.
  rewrite Hfs, Hfe, (truthy_parses _ _ Hs), (truthy_parses _ _ He).
  unfold bind, try_except, py_normalize_Z, py_fromisoformat, py_datetime_ge,
    lift_option, raise, ret.
  simpl. rewrite Hs, He, Hge. simpl. eauto.
Qed.

Lemma validate_date_logic_falsy update_fields a db :
  truthy (dict_get_default "start_date" (dict_get "start_date" a) update_fields)
    = false →
  validate_date_logic update_fields a db = (Return tt, db).
Proof. intros Hfs. unfold validate_date_logic. by rewrite Hfs. Qed.

(** An update that reaches its target runs the two validations and then
    writes the supplied fields over the stored ones. *)
Lemma update_announcement_run
    db announcement_id message end_date start_date teacher_username oid a :
  authorized db teacher_username →
  ObjectId announcement_id = Some oid →
  find_one (Q_eq "_id" oid) (announcements_collection db) = Some a →
  update_announcement announcement_id message end_date start_date
    teacher_username db
  = match build_update_fields message end_date start_date db with
    | (Raise e, _) => (Raise e, db)
    | (Return update_fields, _) =>
        match validate_date_logic update_fields a db with
        | (Raise e, _) => (Raise e, db)
        | (Return _, _) =>
            (Return (response_of (update_fields ∪ a)),
             set_announcements
               (update_one_set (Q_eq "_id" oid) update_fields
                  (announcements_collection db)) db)
        end
    end.
Proof.
  intros (u & _ & Hgate)%gate_pass Hid Hfind. unfold update_announcement.
  rewrite (bind_Return _ _ _ _ _ Hgate).
  destruct (ObjectId_Some _ _ Hid) as [b ->].
  assert (try_except
            (bind (py_ObjectId announcement_id)
               (λ oid, announcements_find_one (Q_eq "_id" oid)))
            except_any
            (raise (HTTPException 400 "Invalid announcement ID")) db
          = (Return (Some a), db)) as Hlookup.
  { unfold try_except, bind, py_ObjectId, lift_option, ret,
      announcements_find_one. rewrite Hid. simpl. by rewrite Hfind. }
  rewrite (bind_Return _ _ _ _ _ Hlookup).
  rewrite (truthy_doc_found "_id" (VObjectId b) (announcements_collection db) a);
    [|done|done]. simpl.
  destruct (build_update_fields_run message end_date start_date db)
    as [(_ & _ & Hb)|(e & _ & Hb)]; rewrite Hb;
    [rewrite (bind_Return _ _ _ _ _ Hb)|by rewrite (bind_Raise _ _ _ _ _ Hb)].
  set (update_fields := update_fields_of message end_date start_date).
  destruct (validate_date_logic update_fields a db) as [[[]|e] db1] eqn:Ev;
    pose proof (validate_date_logic_pure _ _ _ _ _ Ev) as ->;
    [rewrite (bind_Return _ _ _ _ _ Ev)|by rewrite (bind_Raise _ _ _ _ _ Ev)].
  set (c' := update_one_set (Q_eq "_id" (VObjectId b)) update_fields
               (announcements_collection db)).
  assert ((if negb (bool_decide (update_fields = ∅)) then
             bind (py_ObjectId announcement_id)
               (λ oid, announcements_update_one (Q_eq "_id" oid) update_fields)
           else ret tt) db
          = (Return tt, set_announcements c' db)) as Hwrite.
  { case_bool_decide as Hempty; simpl.
    - unfold c'. rewrite Hempty, update_one_set_empty.
      by rewrite set_announcements_id.
    - unfold bind, py_ObjectId, lift_option, ret. by rewrite Hid. }
  rewrite (bind_Return _ _ _ _ _ Hwrite).
  destruct (find_one_split _ _ _ Hfind) as (l1 & l2 & Hc & Hl1 & Ha).
  assert (matches (Q_eq "_id" (VObjectId b)) (update_fields ∪ a) = true) as Ha'.
  { apply matches_eq_Some; [done|]. apply matches_eq_Some in Ha; [|done].
    rewrite lookup_union_r; [done|].
    unfold update_fields. by rewrite update_fields_of_lookup. }
  assert (find_one (Q_eq "_id" (VObjectId b)) c' = Some (update_fields ∪ a))
    as Hfind'.
  { unfold c'. rewrite Hc, (update_one_set_first _ _ _ _ _ Hl1 Ha).
    by apply find_one_first. }
  unfold bind at 1. unfold py_ObjectId, lift_option, ret. rewrite Hid.
  unfold bind, announcements_find_one. simpl. rewrite Hfind'.
  apply stringify_id_response. apply matches_eq_Some in Ha'; [|done].
  by eexists.
Qed.

Lemma update_announcement_Return_inv
    db announcement_id message end_date start_date teacher_username r db' :
  update_announcement announcement_id message end_date start_date
    teacher_username db = (Return r, db') →
  authorized db teacher_username ∧
  ∃ oid a, ObjectId announcement_id = Some oid ∧
           find_one (Q_eq "_id" oid) (announcements_collection db) = Some a.
Proof.
  intros Hrun.
  destruct (gate_cases db teacher_username)
    as [[Hauth _]|(_ & e & _ & Hgate)].
  2: { unfold update_announcement in Hrun.
       by rewrite (bind_Raise _ _ _ _ _ Hgate) in Hrun. }
  split; [done|].
  destruct (ObjectId announcement_id) as [oid|] eqn:Hid.
  2: { destruct (update_announcement_invalid_id db announcement_id message
                   end_date start_date teacher_username Hauth Hid) as [? Hr].
       congruence. }
  destruct (find_one (Q_eq "_id" oid) (announcements_collection db))
    as [a|] eqn:Hfind; [eauto|].
  destruct (ObjectId_Some _ _ Hid) as [b ->].
  apply unused_id_find_one in Hfind; [|done].
  destruct (update_announcement_not_found db announcement_id message
              end_date start_date teacher_username _ Hauth Hid Hfind) as [? Hr].
  congruence.
Qed.

(** Where the comparison of the two dates is defined: an update by an
    authorized teacher of an existing record fails with InvalidArgument
    (400) and leaves the store as it was whenever the prospective final
    [start_date] and [end_date] (a supplied value, the empty string
    clearing [start_date], overriding the stored one) are both present
    and parse to datetimes for which [start_dt >= end_dt] is True.  A
    pair of final dates on which [>=] itself raises is not covered. *)
Theorem update_final_dates_400_where_comparable
    db announcement_id message end_date start_date teacher_username
    oid a s e start_dt end_dt :
  authorized db teacher_username →
  ObjectId announcement_id = Some oid →
  find_one (Q_eq "_id" oid) (announcements_collection db) = Some a →
  final_start_date start_date a = VStr s →
  final_end_date end_date a = VStr e →
  fromisoformat (normalize_Z s) = Some start_dt →
  fromisoformat (normalize_Z e) = Some end_dt →
  datetime_ge start_dt end_dt = Some true →
  ∃ err,
    update_announcement announcement_id message end_date start_date
      teacher_username db = (Raise err, db) ∧
    is_400 err.
Proof.
  intros Hauth Hid Hfind Hfs Hfe Hs He Hge.
  rewrite (update_announcement_run _ _ _ _ _ _ _ _ Hauth Hid Hfind).
  destruct (build_update_fields_run message end_date start_date db)
    as [(_ & _ & Hb)|(err & H400 & Hb)]; rewrite Hb; [|eauto].
  rewrite <- (final_start_date_get message end_date) in Hfs.
  rewrite <- (final_end_date_get message end_date start_date) in Hfe.
  destruct (validate_date_logic_not_before _ _ db _ _ _ _ Hfs Hfe Hs He Hge)
    as [detail ->].
  eexists. split; [done|]. by eexists.
Qed.

(** C6. On an existing record, an authorized update that supplies
    [start_date=""] (with no [end_date], or one that parses) succeeds
    and leaves the record, stored and returned, with a null
    [start_date]; an update that does not supply [start_date] leaves
    the stored [start_date] as it was, whatever its outcome. *)
Theorem C6_update_empty_start_date_clears
    db announcement_id message end_date teacher_username oid a :
  authorized db teacher_username →
  ObjectId announcement_id = Some oid →
  find_one (Q_eq "_id" oid) (announcements_collection db) = Some a →
  ((∀ e, end_date = Some e → parses e) →
   ∃ returned stored db',
     update_announcement announcement_id message end_date (Some "")
       teacher_username db = (Return returned, db') ∧
     find_one (Q_eq "_id" oid) (announcements_collection db') = Some stored ∧
     stored !! "start_date" = Some VNone ∧
     returned !! "start_date" = Some VNone) ∧
  (∀ o db',
     update_announcement announcement_id message end_date None
       teacher_username db = (o, db') →
     ∃ stored,
       find_one (Q_eq "_id" oid) (announcements_collection db') = Some stored ∧
       stored !! "start_date" = a !! "start_date" ∧
       ∀ returned, o = Return returned →
                   returned !! "start_date" = a !! "start_date").
Proof.
  intros Hauth Hid Hfind.
  destruct (find_one_split _ _ _ Hfind) as (l1 & l2 & Hc & Hl1 & Ha).
  destruct (ObjectId_Some _ _ Hid) as [b ->].
  assert (∀ fields : document,
            fields !! "_id" = None →
            find_one (Q_eq "_id" (VObjectId b))
              (update_one_set (Q_eq "_id" (VObjectId b)) fields
                 (announcements_collection db)) = Some (fields ∪ a))
    as Hstored.
  { intros fields Hf. rewrite Hc, (update_one_set_first _ _ _ _ _ Hl1 Ha).
    apply find_one_first; [done|]. apply matches_eq_Some; [done|].
    apply matches_eq_Some in Ha; [|done]. by rewrite lookup_union_r. }
  split.
  - intros Hend.
    rewrite (update_announcement_run _ _ _ _ _ _ _ _ Hauth Hid Hfind).
    destruct (build_update_fields_run message end_date (Some "") db)
      as [(_ & _ & Hb)|(err & H400 & Hb)].
    2: { exfalso. revert Hb.
         unfold build_update_fields, bind, try_except, py_fromisoformat,
           lift_option, raise, ret.
         destruct end_date as [e|]; [|done].
         destruct (Hend e eq_refl) as [d Hd]. unfold parses in Hd.
         by rewrite Hd. }
    rewrite Hb.
    rewrite validate_date_logic_falsy
      by (by rewrite final_start_date_get).
    eexists _, _, _. split; [done|]. simpl.
    split; [apply Hstored; by rewrite update_fields_of_lookup|].
    assert ((update_fields_of message end_date (Some "") ∪ a) !! "start_date"
            = Some VNone) as Hsd.
    { apply lookup_union_Some_l. by rewrite update_fields_of_lookup. }
    split; [done|]. unfold response_of. by rewrite lookup_insert_ne.
  - intros o db'.
    rewrite (update_announcement_run _ _ _ _ _ _ _ _ Hauth Hid Hfind).
    destruct (build_update_fields_run message end_date None db)
      as [(_ & _ & Hb)|(err & H400 & Hb)]; rewrite Hb.
    2: { intros [= <- <-]. exists a. by repeat split. }
    destruct (validate_date_logic _ a db) as [[[]|err] db1];
      intros [= <- <-].
    2: { exists a. by repeat split. }
    assert ((update_fields_of message end_date None ∪ a) !! "start_date"
            = a !! "start_date") as Hsd.
    { apply lookup_union_r. by rewrite update_fields_of_lookup. }
    eexists. simpl.
    split; [apply Hstored; by rewrite update_fields_of_lookup|].
    split; [done|]. intros returned [= <-].
    unfold response_of. by rewrite lookup_insert_ne.
Qed.

(** C7. A successful update writes the supplied fields ([message],
    [end_date], [start_date], the empty string clearing the last) into
    the target record and nothing else: every other field of the
    record, every other record and the teachers keep their values, and
    the response is the stored record after the write, its [_id] as a
    string. *)
Theorem C7_update_writes_only_supplied_fields
    db announcement_id message end_date start_date teacher_username
    returned db' :
  update_announcement announcement_id message end_date start_date
    teacher_username db = (Return returned, db') →
  ∃ oid a stored l1 l2,
    ObjectId announcement_id = Some oid ∧
    find_one (Q_eq "_id" oid) (announcements_collection db) = Some a ∧
    announcements_collection db = (l1 ++ a :: l2)%list ∧
    announcements_collection db' = (l1 ++ stored :: l2)%list ∧
    teachers_collection db' = teachers_collection db ∧
    find_one (Q_eq "_id" oid) (announcements_collection db') = Some stored ∧
    returned = response_of stored ∧
    (∀ m, message = Some m → stored !! "message" = Some (VStr m)) ∧
    (∀ e, end_date = Some e → stored !! "end_date" = Some (VStr e)) ∧
    (∀ s, start_date = Some s →
          stored !! "start_date" = Some (start_date_value s)) ∧
    (message = None → stored !! "message" = a !! "message") ∧
    (end_date = None → stored !! "end_date" = a !! "end_date") ∧
    (start_date = None → stored !! "start_date" = a !! "start_date") ∧
    (∀ k, k ≠ "message" → k ≠ "end_date" → k ≠ "start_date" →
          stored !! k = a !! k).
Proof.
  intros Hrun.
  destruct (update_announcement_Return_inv _ _ _ _ _ _ _ _ Hrun)
    as (Hauth & oid & a & Hid & Hfind).
  rewrite (update_announcement_run _ _ _ _ _ _ _ _ Hauth Hid Hfind) in Hrun.
  destruct (build_update_fields_run message end_date start_date db)
    as [(_ & _ & Hb)|(err & H400 & Hb)]; rewrite Hb in Hrun; [|done].
  destruct (validate_date_logic _ a db) as [[[]|err] db1]; [|done].
  injection Hrun as <- <-.
  set (fields := update_fields_of message end_date start_date).
  destruct (find_one_split _ _ _ Hfind) as (l1 & l2 & Hc & Hl1 & Ha).
  destruct (ObjectId_Some _ _ Hid) as [b ->].
  assert (matches (Q_eq "_id" (VObjectId b)) (fields ∪ a) = true) as Ha'.
  { apply matches_eq_Some; [done|]. apply matches_eq_Some in Ha; [|done].
    rewrite lookup_union_r; [done|].
    unfold fields. by rewrite update_fields_of_lookup. }
  assert (∀ k v, fields !! k = Some v → (fields ∪ a) !! k = Some v) as Hset
    by (intros k v; apply lookup_union_Some_l).
  assert (∀ k, fields !! k = None → (fields ∪ a) !! k = a !! k) as Hkeep
    by (intros k; apply lookup_union_r).
  exists (VObjectId b), a, (fields ∪ a), l1, l2. simpl.
  rewrite Hc, (update_one_set_first _ _ _ _ _ Hl1 Ha).
  split; [done|]. split; [by rewrite <- Hc|]. split; [done|].
  split; [done|]. split; [done|].
  split; [by apply find_one_first|]. split; [done|].
  unfold fields in *.
  repeat split.
  - intros m ->. apply Hset. by rewrite update_fields_of_lookup.
  - intros e ->. apply Hset. by rewrite update_fields_of_lookup.
  - intros s ->. apply Hset. by rewrite update_fields_of_lookup.
  - intros ->. apply Hkeep. by rewrite update_fields_of_lookup.
  - intros ->. apply Hkeep. by rewrite update_fields_of_lookup.
  - intros ->. apply Hkeep. by rewrite update_fields_of_lookup.
  - intros k ? ? ?. apply Hkeep. rewrite update_fields_of_lookup.
    by repeat case_decide.
Qed.

End Properties.

Lemma delete_announcement_invalid_id db announcement_id teacher_username :
  authorized db teacher_username →
  ObjectId announcement_id = None →
  ∃ detail,
    delete_announcement announcement_id teacher_username db
    = (Raise (HTTPException 400 detail), db).
Proof.
  intros (u & _ & Hgate)%gate_pass Hid. unfold delete_announcement.
  rewrite (bind_Return _ _ _ _ _ Hgate).
  unfold bind, try_except, py_ObjectId, lift_option, raise.
  rewrite Hid. simpl. eauto.
Qed.

Lemma delete_announcement_not_found db announcement_id teacher_username oid :
  authorized db teacher_username →
  ObjectId announcement_id = Some oid →
  unused_id oid db →
  ∃ detail,
    delete_announcement announcement_id teacher_username db
    = (Raise (HTTPException 404 detail), db).
Proof.
  intros (u & _ & Hgate)%gate_pass Hid Hunused. unfold delete_announcement.
  rewrite (bind_Return _ _ _ _ _ Hgate).
  destruct (ObjectId_Some _ _ Hid) as [b ->].
  apply unused_id_find_one in Hunused; [|done].
  unfold bind, try_except, py_ObjectId, lift_option, raise, ret,
    announcements_delete_one.
  rewrite Hid. simpl. rewrite (delete_one_none _ _ Hunused). simpl.
  rewrite set_announcements_id. eauto.
Qed.

(** C5. For an authorized requester, update and delete answer
    InvalidArgument (400) to an identifier that is not well formed and
    NotFound (404) to a well-formed identifier that no stored record
    carries; neither changes the store. *)
Theorem C5_malformed_id_400_unknown_id_404
    `{Datetime} db announcement_id message end_date start_date teacher_username :
  authorized db teacher_username →
  (ObjectId announcement_id = None →
   (∃ e, update_announcement announcement_id message end_date start_date
           teacher_username db = (Raise e, db) ∧ is_400 e ∧ ¬ is_404 e) ∧
   (∃ e, delete_announcement announcement_id teacher_username db
         = (Raise e, db) ∧ is_400 e ∧ ¬ is_404 e)) ∧
  (∀ oid, ObjectId announcement_id = Some oid → unused_id oid db →
   (∃ e, update_announcement announcement_id message end_date start_date
           teacher_username db = (Raise e, db) ∧ is_404 e ∧ ¬ is_400 e) ∧
   (∃ e, delete_announcement announcement_id teacher_username db
         = (Raise e, db) ∧ is_404 e ∧ ¬ is_400 e)).
Proof.
  intros Hauth. split.
  - intros Hid.
    destruct (update_announcement_invalid_id db announcement_id message
                end_date start_date teacher_username Hauth Hid) as [d1 ->].
    destruct (delete_announcement_invalid_id db announcement_id
                teacher_username Hauth Hid) as [d2 ->].
    split; eexists; (split; [done|]); (split; [by eexists|by intros [? [=]]]).
  - intros oid Hid Hunused.
    destruct (update_announcement_not_found db announcement_id message
                end_date start_date teacher_username oid Hauth Hid Hunused)
      as [d1 ->].
    destruct (delete_announcement_not_found db announcement_id
                teacher_username oid Hauth Hid Hunused) as [d2 ->].
    split; eexists; (split; [done|]); (split; [by eexists|by intros [? [=]]]).
Qed.

(** ** The Z suffix *)

Lemma string_append_assoc (a b c : string) : (a ++ b) ++ c = a ++ (b ++ c).
Proof.
  induction a as [|x a IH]; [done|].
  change (String x ((a ++ b) ++ c) = String x (a ++ (b ++ c))). by rewrite IH.
Qed.

Lemma str_replace_app old new a b :
  str_replace old new (a ++ b) = str_replace old new a ++ str_replace old new b.
Proof.
  induction a as [|c a IH]; [done|].
  change (String c a ++ b) with (String c (a ++ b)). simpl.
  destruct (Ascii.eqb c old); rewrite IH; [|done].
  by rewrite string_append_assoc.
Qed.

Lemma normalize_Z_suffix d : normalize_Z (d ++ "Z") = normalize_Z d ++ "+00:00".
Proof. unfold normalize_Z. by rewrite str_replace_app. Qed.

(** C8. A create whose [end_date] carries a trailing Z succeeds whenever
    the text with the Z turned into [+00:00] parses: that text is what the
    parser is given, and the record stored and returned holds the
    [end_date] as supplied, Z included.  The request with
    ["2030-01-01T00:00:00Z"] is run at the end of the file. *)
Theorem C8_create_accepts_Z_suffix
    `{Datetime} db message d teacher_username now inserted_id end_dt :
  authorized db teacher_username →
  unused_id (VObjectId inserted_id) db →
  fromisoformat (normalize_Z d ++ "+00:00") = Some end_dt →
  normalize_Z (d ++ "Z") = normalize_Z d ++ "+00:00" ∧
  ∃ returned stored db',
    create_announcement message (d ++ "Z") None teacher_username
      now inserted_id db = (Return returned, db') ∧
    announcements_collection db' = (announcements_collection db ++ [stored])%list ∧
    stored !! "end_date" = Some (VStr (d ++ "Z")) ∧
    returned !! "end_date" = Some (VStr (d ++ "Z")).
Proof.
  intros Hauth Hunused Hparse. split; [apply normalize_Z_suffix|].
  rewrite <- normalize_Z_suffix in Hparse.
  destruct Hauth as (u & -> & Hauth).
  assert (authorized db (Some u)) as Hauth' by (exists u; eauto).
  pose proof (create_announcement_success db message (d ++ "Z") None u now
                inserted_id end_dt Hauth' Hparse (or_introl eq_refl) Hunused)
    as Hrun.
  simpl in Hrun. eexists _, _, _. split; [exact Hrun|].
  by repeat split.
Qed.


(** ** The theorems at work on the worked database *)

Lemma example_mchen_authorized : authorized Example.db (Some "mchen").
Proof.
  exists "mchen". split; [done|]. split; [done|].
  exists Example.teacher. split; [by left|done].
Qed.

Lemma example_ghost_teacher_not_authorized : ¬ authorized Example.db (Some "ghost_teacher").
Proof.
  intros (u & [= <-] & _ & t & Ht & Hid).
  apply list_elem_of_singleton in Ht as ->. done.
Qed.

Lemma example_db_has_ids : Forall has_id (announcements_collection Example.db).
Proof. repeat constructor; by eexists. Qed.

Lemma example_oid3_unused : unused_id (VObjectId Example.oid3) Example.db.
Proof. by apply unused_id_find_one. Qed.

Lemma list_active_example :
  Forall has_id (announcements_collection Example.db) ∧
  ∃ l, get_active_announcements "2025-03-01T12:00:00" Example.db
       = (Return l, Example.db) ∧
       l ≡ₚ response_of <$> filter (is_active "2025-03-01T12:00:00")
                              (announcements_collection Example.db) ∧
       (∀ r, r ∈ l → is_active "2025-03-01T12:00:00" r) ∧
       (∀ a, a ∈ announcements_collection Example.db →
             is_active "2025-03-01T12:00:00" a → response_of a ∈ l).
Proof.
  split; [exact example_db_has_ids|].
  exact (C2_list_active_exactly_active Example.db "2025-03-01T12:00:00"
           example_db_has_ids).
Defined.

Lemma lists_sorted_example :
  Forall has_id (announcements_collection Example.db) ∧
  authorized Example.db (Some "mchen") ∧
  (∃ l, get_active_announcements "2025-03-01T12:00:00" Example.db
        = (Return l, Example.db) ∧
        StronglySorted (sort_rel_desc "created_at") l ∧
        l ≡ₚ response_of <$> filter (is_active "2025-03-01T12:00:00")
                               (announcements_collection Example.db)) ∧
  (∃ l, get_all_announcements (Some "mchen") Example.db = (Return l, Example.db) ∧
        StronglySorted (sort_rel_desc "created_at") l ∧
        l ≡ₚ response_of <$> announcements_collection Example.db).
Proof.
  split; [exact example_db_has_ids|].
  split; [exact example_mchen_authorized|].
  destruct (C9_lists_sorted_by_created_at_desc Example.db "2025-03-01T12:00:00"
              (Some "mchen") example_db_has_ids) as [Hactive Hall].
  split; [exact Hactive|]. exact (Hall example_mchen_authorized).
Defined.

Lemma create_start_after_end_example :
  (fromisoformat (normalize_Z "2025-01-01T00:00:00") = None ∨
   ∃ s start_dt end_dt,
     Some "2025-01-02T00:00:00" = Some s ∧
     fromisoformat (normalize_Z s) = Some start_dt ∧
     fromisoformat (normalize_Z "2025-01-01T00:00:00") = Some end_dt ∧
     datetime_ge start_dt end_dt = Some true) ∧
  ∃ e,
    create_announcement "M" "2025-01-01T00:00:00" (Some "2025-01-02T00:00:00")
      (Some "mchen") "2024-12-24T10:00:00" Example.oid3 Example.db
    = (Raise e, Example.db) ∧
    (authorized Example.db (Some "mchen") → is_400 e) ∧
    (¬ authorized Example.db (Some "mchen") → is_401 e).
Proof.
  assert (fromisoformat (normalize_Z "2025-01-01T00:00:00") = None ∨
          ∃ s start_dt end_dt,
            Some "2025-01-02T00:00:00" = Some s ∧
            fromisoformat (normalize_Z s) = Some start_dt ∧
            fromisoformat (normalize_Z "2025-01-01T00:00:00") = Some end_dt ∧
            datetime_ge start_dt end_dt = Some true) as Hdates.
  { right. eexists _, _, _. repeat split; vm_compute; reflexivity. }
  split; [exact Hdates|].
  exact (create_invalid_dates_400_where_comparable Example.db "M" "2025-01-01T00:00:00"
           (Some "2025-01-02T00:00:00") (Some "mchen") "2024-12-24T10:00:00"
           Example.oid3 Hdates).
Defined.

Lemma update_end_before_start_example :
  authorized Example.db (Some "mchen") ∧
  ObjectId "507f1f77bcf86cd799439011" = Some (VObjectId Example.oid1) ∧
  find_one (Q_eq "_id" (VObjectId Example.oid1))
    (announcements_collection Example.db) = Some Example.sports_day ∧
  final_start_date None Example.sports_day = VStr "2025-01-01T00:00:00" ∧
  final_end_date (Some "2024-06-01T00:00:00") Example.sports_day
    = VStr "2024-06-01T00:00:00" ∧
  fromisoformat (normalize_Z "2025-01-01T00:00:00")
    = Some (Example.naive 2025 1 1 0 0 0) ∧
  fromisoformat (normalize_Z "2024-06-01T00:00:00")
    = Some (Example.naive 2024 6 1 0 0 0) ∧
  datetime_ge (Example.naive 2025 1 1 0 0 0) (Example.naive 2024 6 1 0 0 0)
    = Some true ∧
  ∃ err,
    update_announcement "507f1f77bcf86cd799439011" None
      (Some "2024-06-01T00:00:00") None (Some "mchen") Example.db
    = (Raise err, Example.db) ∧
    is_400 err.
Proof.
  repeat (split; [first [exact example_mchen_authorized | vm_compute; reflexivity]|]).
  apply (update_final_dates_400_where_comparable Example.db "507f1f77bcf86cd799439011" None
           (Some "2024-06-01T00:00:00") None (Some "mchen")
           (VObjectId Example.oid1) Example.sports_day
           "2025-01-01T00:00:00" "2024-06-01T00:00:00"
           (Example.naive 2025 1 1 0 0 0) (Example.naive 2024 6 1 0 0 0));
    first [exact example_mchen_authorized | vm_compute; reflexivity].
Defined.

Lemma malformed_and_unknown_id_example :
  authorized Example.db (Some "mchen") ∧
  ObjectId "not-a-valid-id" = None ∧
  ((∃ e, update_announcement "not-a-valid-id" (Some "M") None None
           (Some "mchen") Example.db = (Raise e, Example.db) ∧
         is_400 e ∧ ¬ is_404 e) ∧
   (∃ e, delete_announcement "not-a-valid-id" (Some "mchen") Example.db
         = (Raise e, Example.db) ∧ is_400 e ∧ ¬ is_404 e)) ∧
  ObjectId "507f1f77bcf86cd799439013" = Some (VObjectId Example.oid3) ∧
  unused_id (VObjectId Example.oid3) Example.db ∧
  ((∃ e, update_announcement "507f1f77bcf86cd799439013" (Some "M") None None
           (Some "mchen") Example.db = (Raise e, Example.db) ∧
         is_404 e ∧ ¬ is_400 e) ∧
   (∃ e, delete_announcement "507f1f77bcf86cd799439013" (Some "mchen") Example.db
         = (Raise e, Example.db) ∧ is_404 e ∧ ¬ is_400 e)).
Proof.
  split; [exact example_mchen_authorized|].
  split; [vm_compute; reflexivity|].
  split.
  { apply (proj1 (C5_malformed_id_400_unknown_id_404 Example.db
                    "not-a-valid-id" (Some "M") None None (Some "mchen")
                    example_mchen_authorized)).
    vm_compute; reflexivity. }
  split; [vm_compute; reflexivity|].
  split; [exact example_oid3_unused|].
  apply (proj2 (C5_malformed_id_400_unknown_id_404 Example.db
                  "507f1f77bcf86cd799439013" (Some "M") None None (Some "mchen")
                  example_mchen_authorized) (VObjectId Example.oid3)).
  - vm_compute; reflexivity.
  - exact example_oid3_unused.
Defined.

Lemma clear_start_date_example :
  authorized Example.db (Some "mchen") ∧
  ObjectId "507f1f77bcf86cd799439011" = Some (VObjectId Example.oid1) ∧
  find_one (Q_eq "_id" (VObjectId Example.oid1))
    (announcements_collection Example.db) = Some Example.sports_day ∧
  Example.sports_day !! "start_date" = Some (VStr "2025-01-01T00:00:00") ∧
  (∃ returned stored db',
     update_announcement "507f1f77bcf86cd799439011" None None (Some "")
       (Some "mchen") Example.db = (Return returned, db') ∧
     find_one (Q_eq "_id" (VObjectId Example.oid1))
       (announcements_collection db') = Some stored ∧
     stored !! "start_date" = Some VNone ∧
     returned !! "start_date" = Some VNone) ∧
  (∀ o db',
     update_announcement "507f1f77bcf86cd799439011" None None None
       (Some "mchen") Example.db = (o, db') →
     ∃ stored,
       find_one (Q_eq "_id" (VObjectId Example.oid1))
         (announcements_collection db') = Some stored ∧
       stored !! "start_date" = Example.sports_day !! "start_date" ∧
       ∀ returned, o = Return returned →
                   returned !! "start_date" = Example.sports_day !! "start_date").
Proof.
  assert (ObjectId "507f1f77bcf86cd799439011" = Some (VObjectId Example.oid1))
    as Hid by (vm_compute; reflexivity).
  assert (find_one (Q_eq "_id" (VObjectId Example.oid1))
            (announcements_collection Example.db) = Some Example.sports_day)
    as Hfind by (vm_compute; reflexivity).
  split; [exact example_mchen_authorized|].
  split; [exact Hid|]. split; [exact Hfind|].
  split; [vm_compute; reflexivity|].
  destruct (C6_update_empty_start_date_clears Example.db
              "507f1f77bcf86cd799439011" None None (Some "mchen")
              (VObjectId Example.oid1) Example.sports_day
              example_mchen_authorized Hid Hfind) as [Hclear Hkeep].
  split; [|exact Hkeep]. apply Hclear. intros e [=].
Defined.

Lemma update_message_example :
  update_announcement "507f1f77bcf86cd799439011" (Some "Sports day moved")
    None None (Some "mchen") Example.db
  = (Return (response_of (<["message" := VStr "Sports day moved"]> Example.sports_day)),
     set_announcements
       [<["message" := VStr "Sports day moved"]> Example.sports_day;
        Example.library_closed] Example.db) ∧
  ∃ oid a stored l1 l2,
    ObjectId "507f1f77bcf86cd799439011" = Some oid ∧
    find_one (Q_eq "_id" oid) (announcements_collection Example.db) = Some a ∧
    announcements_collection Example.db = (l1 ++ a :: l2)%list ∧
    [<["message" := VStr "Sports day moved"]> Example.sports_day;
     Example.library_closed] = (l1 ++ stored :: l2)%list ∧
    teachers_collection Example.db = teachers_collection Example.db ∧
    find_one (Q_eq "_id" oid)
      [<["message" := VStr "Sports day moved"]> Example.sports_day;
       Example.library_closed] = Some stored ∧
    response_of (<["message" := VStr "Sports day moved"]> Example.sports_day)
      = response_of stored ∧
    (∀ m, Some "Sports day moved" = Some m → stored !! "message" = Some (VStr m)) ∧
    (∀ e, @None string = Some e → stored !! "end_date" = Some (VStr e)) ∧
    (∀ s, @None string = Some s →
          stored !! "start_date" = Some (start_date_value s)) ∧
    (Some "Sports day moved" = None → stored !! "message" = a !! "message") ∧
    (@None string = None → stored !! "end_date" = a !! "end_date") ∧
    (@None string = None → stored !! "start_date" = a !! "start_date") ∧
    (∀ k, k ≠ "message" → k ≠ "end_date" → k ≠ "start_date" →
          stored !! k = a !! k).
Proof.
  assert (update_announcement "507f1f77bcf86cd799439011"
            (Some "Sports day moved") None None (Some "mchen") Example.db
          = (Return (response_of
                       (<["message" := VStr "Sports day moved"]> Example.sports_day)),
             set_announcements
               [<["message" := VStr "Sports day moved"]> Example.sports_day;
                Example.library_closed] Example.db)) as Hrun
    by (vm_compute; reflexivity).
  split; [exact Hrun|].
  exact (C7_update_writes_only_supplied_fields _ _ _ _ _ _ _ _ Hrun).
Defined.

Lemma create_Z_suffix_example :
  authorized Example.db (Some "mchen") ∧
  unused_id (VObjectId Example.oid3) Example.db ∧
  fromisoformat (normalize_Z "2030-01-01T00:00:00" ++ "+00:00")
    = Some (Example.utc 2030 1 1 0 0 0) ∧
  normalize_Z "2030-01-01T00:00:00Z" = "2030-01-01T00:00:00+00:00" ∧
  ∃ returned stored db',
    create_announcement "M" "2030-01-01T00:00:00Z" None (Some "mchen")
      "2024-12-24T10:00:00" Example.oid3 Example.db = (Return returned, db') ∧
    announcements_collection db'
      = (announcements_collection Example.db ++ [stored])%list ∧
    stored !! "end_date" = Some (VStr "2030-01-01T00:00:00Z") ∧
    returned !! "end_date" = Some (VStr "2030-01-01T00:00:00Z").
Proof.
  split; [exact example_mchen_authorized|].
  split; [exact example_oid3_unused|].
  split; [vm_compute; reflexivity|].
  apply (C8_create_accepts_Z_suffix Example.db "M" "2030-01-01T00:00:00"
           (Some "mchen") "2024-12-24T10:00:00" Example.oid3
           (Example.utc 2030 1 1 0 0 0)).
  - exact example_mchen_authorized.
  - exact example_oid3_unused.
  - vm_compute; reflexivity.
Defined.

Lemma create_empty_start_date_example :
  authorized Example.db (Some "mchen") ∧
  fromisoformat (normalize_Z "2025-12-31T23:59:59")
    = Some (Example.naive 2025 12 31 23 59 59) ∧
  unused_id (VObjectId Example.oid3) Example.db ∧
  ∃ returned stored db',
    create_announcement "M" "2025-12-31T23:59:59" (Some "") (Some "mchen")
      "2024-12-24T10:00:00" Example.oid3 Example.db = (Return returned, db') ∧
    announcements_collection db'
      = (announcements_collection Example.db ++ [stored])%list ∧
    stored !! "start_date" = Some (VStr "") ∧
    returned !! "start_date" = Some (VStr "") ∧
    fromisoformat (normalize_Z "") = None ∧
    (∀ t, matches (Q_lte "start_date" (VStr t)) stored = true ∧
          (matches (active_query t) stored = true
           ↔ (t ≤ "2025-12-31T23:59:59")%string)) ∧
    (Forall has_id (announcements_collection Example.db) →
     ∀ t, ∃ l, get_active_announcements t db' = (Return l, db') ∧
               (returned ∈ l ↔ (t ≤ "2025-12-31T23:59:59")%string)).
Proof.
  split; [exact example_mchen_authorized|].
  split; [vm_compute; reflexivity|].
  split; [exact example_oid3_unused|].
  apply (C10_create_empty_start_date Example.db "M" "2025-12-31T23:59:59"
           (Some "mchen") "2024-12-24T10:00:00" Example.oid3
           (Example.naive 2025 12 31 23 59 59)).
  - exact example_mchen_authorized.
  - vm_compute; reflexivity.
  - exact example_oid3_unused.
Defined.

Lemma ghost_teacher_example :
  ¬ authorized Example.db (Some "ghost_teacher") ∧
  ¬ authorized Example.db None ∧
  unauthorized (get_all_announcements (Some "ghost_teacher") Example.db) ∧
  unauthorized (create_announcement "M" "2030-01-01T00:00:00" None
                  (Some "ghost_teacher") "2024-12-24T10:00:00"
                  Example.oid3 Example.db) ∧
  unauthorized (update_announcement "507f1f77bcf86cd799439011" (Some "M")
                  None None (Some "ghost_teacher") Example.db) ∧
  unauthorized (delete_announcement "507f1f77bcf86cd799439011"
                  (Some "ghost_teacher") Example.db) ∧
  unauthorized (get_all_announcements None Example.db).
Proof.
  assert (¬ authorized Example.db None) as Hnone by (by intros (u & [=] & _)).
  pose proof (C1_unauthorized_iff Example.db (Some "ghost_teacher"))
    as (Hall & Hcreate & Hupdate & Hdelete & _).
  pose proof (C1_unauthorized_iff Example.db None) as (Hall' & _).
  split; [exact example_ghost_teacher_not_authorized|].
  split; [exact Hnone|].
  split; [apply Hall, example_ghost_teacher_not_authorized|].
  split; [apply Hcreate, example_ghost_teacher_not_authorized|].
  split; [apply Hupdate, example_ghost_teacher_not_authorized|].
  split; [apply Hdelete, example_ghost_teacher_not_authorized|].
  apply Hall', Hnone.
Defined.

(** An offset-naive [start_date] against an offset-aware [end_date]: both
    parse, the comparison raises, and the handler lets the [TypeError]
    through; nothing is stored. *)
Example create_naive_start_aware_end :
  create_announcement "M" "2030-01-01T00:00:00Z" (Some "2031-01-01T00:00:00")
    (Some "mchen") "2024-12-24T10:00:00" Example.oid3 Example.db
  = (Raise TypeError, Example.db).
Proof. vm_compute; reflexivity. Qed.

(** The same pair on update, the stored [end_date] carrying the offset. *)
Example update_naive_start_aware_end :
  let stored :=
    <["_id" := VObjectId Example.oid3]>
      (new_announcement "M" None "2030-01-01T00:00:00Z" "mchen"
         "2024-12-24T10:00:00") in
  let db := set_announcements [stored] Example.db in
  update_announcement "507f1f77bcf86cd799439013" None None
    (Some "2031-01-01T00:00:00") (Some "mchen") db
  = (Raise TypeError, db).
Proof. vm_compute; reflexivity. Qed.

(** ** Further properties of the handlers *)

(** *** delete *)

Lemma delete_one_first q l1 a l2 :
  Forall (λ d, matches q d = false) l1 → matches q a = true →
  delete_one q (l1 ++ a :: l2) = (1%nat, (l1 ++ l2)%list).
Proof.
  intros Hl1 Ha. induction Hl1 as [|d l1 Hd _ IH]; simpl.
  - by rewrite Ha.
  - by rewrite Hd, IH.
Qed.

Lemma delete_announcement_found db announcement_id teacher_username oid a l1 l2 :
  authorized db teacher_username →
  ObjectId announcement_id = Some oid →
  announcements_collection db = (l1 ++ a :: l2)%list →
  Forall (λ d, matches (Q_eq "_id" oid) d = false) l1 →
  matches (Q_eq "_id" oid) a = true →
  delete_announcement announcement_id teacher_username db
  = (Return deleted_confirmation, set_announcements (l1 ++ l2) db).
Proof.
  intros (u & _ & Hgate)%gate_pass Hid Hc Hl1 Ha. unfold delete_announcement.
  rewrite (bind_Return _ _ _ _ _ Hgate).
  unfold bind, try_except, py_ObjectId, lift_option, raise, ret,
    announcements_delete_one.
  rewrite Hid. simpl. by rewrite Hc, (delete_one_first _ _ _ _ Hl1 Ha).
Qed.

(** The four ways a delete ends. *)
Lemma delete_announcement_cases db announcement_id teacher_username :
  (∃ e, (is_401 e ∨ is_400 e ∨ is_404 e) ∧
        delete_announcement announcement_id teacher_username db = (Raise e, db)) ∨
  (∃ oid a l1 l2,
     authorized db teacher_username ∧
     ObjectId announcement_id = Some oid ∧
     announcements_collection db = (l1 ++ a :: l2)%list ∧
     Forall (λ d, matches (Q_eq "_id" oid) d = false) l1 ∧
     matches (Q_eq "_id" oid) a = true ∧
     delete_announcement announcement_id teacher_username db
     = (Return deleted_confirmation, set_announcements (l1 ++ l2) db)).
Proof.
  destruct (gate_cases db teacher_username)
    as [[Hauth _]|(_ & e & H401 & Hgate)].
  2: { left. exists e. split; [by left|].
       unfold delete_announcement. by rewrite (bind_Raise _ _ _ _ _ Hgate). }
  destruct (ObjectId announcement_id) as [oid|] eqn:Hid.
  2: { left. destruct (delete_announcement_invalid_id _ _ _ Hauth Hid) as [d Hd].
       eexists. split; [|exact Hd]. right; left. by eexists. }
  destruct (find_one (Q_eq "_id" oid) (announcements_collection db))
    as [a|] eqn:Hfind.
  - right. destruct (find_one_split _ _ _ Hfind) as (l1 & l2 & Hc & Hl1 & Ha).
    exists oid, a, l1, l2. repeat split; try done.
    by eapply delete_announcement_found.
  - left. destruct (ObjectId_Some _ _ Hid) as [b ->].
    apply unused_id_find_one in Hfind; [|done].
    destruct (delete_announcement_not_found _ _ _ _ Hauth Hid Hfind) as [d Hd].
    eexists. split; [|exact Hd]. right; right. by eexists.
Qed.

(** X1. For an authorized teacher and a well-formed identifier that a
    stored record carries, delete answers the confirmation and removes
    the first record with that identifier and nothing else: the records
    before and after it stay, in order, and the teachers are untouched. *)
Theorem delete_removes_the_record db announcement_id teacher_username oid a :
  authorized db teacher_username →
  ObjectId announcement_id = Some oid →
  find_one (Q_eq "_id" oid) (announcements_collection db) = Some a →
  ∃ l1 l2 db',
    announcements_collection db = (l1 ++ a :: l2)%list ∧
    Forall (λ d, d !! "_id" ≠ Some oid) l1 ∧
    delete_announcement announcement_id teacher_username db
    = (Return deleted_confirmation, db') ∧
    announcements_collection db' = (l1 ++ l2)%list ∧
    teachers_collection db' = teachers_collection db.
Proof.
  intros Hauth Hid Hfind.
  destruct (find_one_split _ _ _ Hfind) as (l1 & l2 & Hc & Hl1 & Ha).
  destruct (ObjectId_Some _ _ Hid) as [b ->].
  exists l1, l2, (set_announcements (l1 ++ l2) db).
  split; [done|]. split.
  { eapply Forall_impl; [exact Hl1|]. intros d Hd Hd'.
    apply (matches_eq_Some "_id" (VObjectId b) d) in Hd'; [|done]. congruence. }
  split; [by eapply delete_announcement_found|]. by split.
Qed.

(** X2. A delete ends in one of two ways only: it answers the
    confirmation, one record fewer in the store; or it raises an HTTP
    error with status 401, 400 or 404 and the database is exactly as it
    was.  No other exception leaves the handler. *)
Theorem delete_outcomes db announcement_id teacher_username :
  let '(o, db') := delete_announcement announcement_id teacher_username db in
  (o = Return deleted_confirmation ∧
   S (length (announcements_collection db'))
   = length (announcements_collection db) ∧
   teachers_collection db' = teachers_collection db) ∨
  (∃ e, o = Raise e ∧ (is_401 e ∨ is_400 e ∨ is_404 e) ∧ db' = db).
Proof.
  destruct (delete_announcement_cases db announcement_id teacher_username)
    as [(e & He & ->)|(oid & a & l1 & l2 & _ & _ & Hc & _ & _ & ->)].
  - right. by exists e.
  - left. split; [done|]. split; [|done]. simpl.
    rewrite Hc, !length_app. simpl. lia.
Qed.

Lemma ids_unique_gone oid a l1 l2 :
  NoDup (dict_get "_id" <$> (l1 ++ a :: l2)%list) →
  Forall (λ d, matches (Q_eq "_id" oid) d = false) l1 →
  matches (Q_eq "_id" oid) a = true →
  find_one (Q_eq "_id" oid) (l1 ++ l2) = None.
Proof.
  intros Hnd Hl1 Ha. apply find_one_None. intros d Hd.
  apply elem_of_app in Hd as [Hd|Hd].
  - rewrite Forall_forall in Hl1. by apply Hl1.
  - simpl in *. apply bool_decide_eq_true in Ha.
    apply bool_decide_eq_false. intros Hd'.
    rewrite fmap_app, fmap_cons in Hnd.
    apply NoDup_app in Hnd as (_ & _ & Hnd).
    apply NoDup_cons in Hnd as [Hnotin _].
    apply Hnotin. rewrite Ha, <- Hd'. by apply list_elem_of_fmap_2.
Qed.

(** X3. Where identifiers are unique, a record deleted is gone: a second
    delete of the same identifier answers NotFound (404), and so does an
    update of it, whatever fields it supplies. *)
Theorem delete_then_not_found
    `{Datetime} db announcement_id teacher_username r db' :
  ids_unique db →
  delete_announcement announcement_id teacher_username db = (Return r, db') →
  (∃ e, delete_announcement announcement_id teacher_username db'
        = (Raise e, db') ∧ is_404 e) ∧
  (∀ message end_date start_date,
     ∃ e, update_announcement announcement_id message end_date start_date
            teacher_username db' = (Raise e, db') ∧ is_404 e).
Proof.
  intros Huniq Hrun.
  destruct (delete_announcement_cases db announcement_id teacher_username)
    as [(e & _ & He)|(oid & a & l1 & l2 & Hauth & Hid & Hc & Hl1 & Ha & Hdel)];
    [congruence|].
  rewrite Hdel in Hrun. injection Hrun as <- <-.
  set (db' := set_announcements (l1 ++ l2) db).
  assert (authorized db' teacher_username) as Hauth' by exact Hauth.
  destruct (ObjectId_Some _ _ Hid) as [b ->].
  assert (unused_id (VObjectId b) db') as Hunused.
  { apply unused_id_find_one; [done|]. simpl.
    unfold ids_unique in Huniq. rewrite Hc in Huniq.
    by eapply ids_unique_gone. }
  split.
  - destruct (delete_announcement_not_found _ _ _ _ Hauth' Hid Hunused) as [d Hd].
    eexists. split; [exact Hd|]. by eexists.
  - intros message end_date start_date.
    destruct (update_announcement_not_found db' announcement_id message
                end_date start_date teacher_username _ Hauth' Hid Hunused)
      as [d Hd].
    eexists. split; [exact Hd|]. by eexists.
Qed.

(** *** create *)

Section MoreProperties.
Context `{Datetime}.

Lemma create_announcement_bad_start_date
    db message end_date s teacher_username now inserted_id end_dt :
  authorized db teacher_username →
  fromisoformat (normalize_Z end_date) = Some end_dt →
  s ≠ "" →
  fromisoformat (normalize_Z s) = None →
  ∃ detail,
    create_announcement message end_date (Some s) teacher_username
      now inserted_id db = (Raise (HTTPException 400 detail), db).
Proof.
  intros (u & _ & Hgate)%gate_pass Hend Hne Hs. unfold create_announcement.
  rewrite (bind_Return _ _ _ _ _ Hgate).
  assert (truthy_param (Some s) = true) as Htruthy
    by (apply truthy_param_Some; eauto).
  unfold bind, try_except, py_fromisoformat, py_datetime_ge, lift_option,
    raise, ret.
  rewrite Hend, Htruthy. simpl. rewrite Hs. simpl. eauto.
Qed.

Lemma create_announcement_incomparable
    db message end_date s teacher_username now inserted_id start_dt end_dt :
  authorized db teacher_username →
  fromisoformat (normalize_Z s) = Some start_dt →
  fromisoformat (normalize_Z end_date) = Some end_dt →
  datetime_ge start_dt end_dt = None →
  create_announcement message end_date (Some s) teacher_username
    now inserted_id db = (Raise TypeError, db).
Proof.
  intros (u & _ & Hgate)%gate_pass Hs Hend Hge. unfold create_announcement.
  rewrite (bind_Return _ _ _ _ _ Hgate).
  unfold bind, try_except, py_fromisoformat, py_datetime_ge, lift_option,
    raise, ret.
  rewrite Hend, (parses_nonempty _ _ Hs). simpl. by rewrite Hs, Hge.
Qed.

Lemma create_announcement_duplicate
    db message end_date start_date teacher_username now inserted_id d :
  authorized db teacher_username →
  dates_accepted start_date end_date →
  find_one (Q_eq "_id" (VObjectId inserted_id)) (announcements_collection db)
    = Some d →
  create_announcement message end_date start_date teacher_username
    now inserted_id db = (Raise DuplicateKeyError, db).
Proof.
  intros (u & _ & Hgate)%gate_pass (end_dt & Hend & Hstart) Hdup.
  unfold create_announcement.
  rewrite (bind_Return _ _ _ _ _ Hgate).
  unfold bind, try_except, py_fromisoformat, py_datetime_ge, lift_option,
    raise, ret, announcements_insert_one.
  rewrite Hend.
  destruct Hstart as [->|(s & start_dt & -> & Hs & Hge)].
  - simpl. by rewrite Hdup.
  - rewrite (parses_nonempty _ _ Hs). simpl. rewrite Hs, Hge. simpl.
    by rewrite Hdup.
Qed.

(** The ways a create ends. *)
Lemma create_announcement_cases
    db message end_date start_date teacher_username now inserted_id :
  (∃ e, (is_401 e ∨ is_400 e ∨ e = TypeError ∨ e = DuplicateKeyError) ∧
        create_announcement message end_date start_date teacher_username
          now inserted_id db = (Raise e, db)) ∨
  (∃ u,
     teacher_username = Some u ∧
     authorized db teacher_username ∧
     dates_accepted start_date end_date ∧
     unused_id (VObjectId inserted_id) db ∧
     let a := new_announcement message start_date end_date u now in
     create_announcement message end_date start_date teacher_username
       now inserted_id db
     = (Return (<["_id" := VStr (hexlify inserted_id)]> a),
        set_announcements
          (announcements_collection db ++ [<["_id" := VObjectId inserted_id]> a])
          db)).
Proof.
  destruct (gate_cases db teacher_username)
    as [(Hauth & u & -> & _)|(_ & e & H401 & Hgate)].
  2: { left. exists e. split; [by left|].
       unfold create_announcement. by rewrite (bind_Raise _ _ _ _ _ Hgate). }
  assert (∀ detail, is_401 (HTTPException 400 detail) ∨
                    is_400 (HTTPException 400 detail) ∨
                    HTTPException 400 detail = TypeError ∨
                    HTTPException 400 detail = DuplicateKeyError) as H400
    by (intros detail; right; left; by eexists).
  destruct (fromisoformat (normalize_Z end_date)) as [end_dt|] eqn:Hend.
  2: { left. destruct (create_announcement_bad_end_date db message end_date
                         start_date (Some u) now inserted_id Hauth Hend)
         as [detail Hd]. eauto. }
  assert (dates_accepted start_date end_date →
          (∃ e, (is_401 e ∨ is_400 e ∨ e = TypeError ∨ e = DuplicateKeyError) ∧
                create_announcement message end_date start_date (Some u)
                  now inserted_id db = (Raise e, db)) ∨
          (∃ u0,
             Some u = Some u0 ∧ authorized db (Some u) ∧
             dates_accepted start_date end_date ∧
             unused_id (VObjectId inserted_id) db ∧
             let a := new_announcement message start_date end_date u0 now in
             create_announcement message end_date start_date (Some u)
               now inserted_id db
             = (Return (<["_id" := VStr (hexlify inserted_id)]> a),
                set_announcements
                  (announcements_collection db
                     ++ [<["_id" := VObjectId inserted_id]> a]) db)))
    as Haccepted.
  { intros Hok.
    destruct (find_one (Q_eq "_id" (VObjectId inserted_id))
                (announcements_collection db)) as [d|] eqn:Hdup.
    - left. exists DuplicateKeyError. split; [by right; right; right|].
      by eapply create_announcement_duplicate.
    - right. exists u. apply unused_id_find_one in Hdup; [|done].
      repeat split; try done.
      destruct Hok as (end_dt' & Hend' & Hstart).
      by eapply create_announcement_success. }
  destruct (truthy_param start_date) eqn:Htruthy.
  2: { apply Haccepted. exists end_dt. split; [done|]. by left. }
  apply truthy_param_Some in Htruthy as (s & -> & Hne).
  destruct (fromisoformat (normalize_Z s)) as [start_dt|] eqn:Hs.
  2: { left. destruct (create_announcement_bad_start_date db message end_date
                         s (Some u) now inserted_id end_dt Hauth Hend Hne Hs)
         as [detail Hd]. eauto. }
  destruct (datetime_ge start_dt end_dt) as [[]|] eqn:Hge.
  - left. destruct (create_announcement_start_not_before_end db message
                      end_date s (Some u) now inserted_id start_dt end_dt
                      Hauth Hs Hend Hge) as [detail Hd]. eauto.
  - apply Haccepted. exists end_dt. split; [done|]. right. eauto.
  - left. exists TypeError. split; [by right; right; left|].
    by eapply create_announcement_incomparable.
Qed.

(** X4. A create succeeds exactly when the requester is authorized, the
    dates pass the check (the [end_date] parses; the [start_date] is
    absent or empty, or parses to a datetime for which
    [start_dt >= end_dt] is False) and the generated identifier is not
    yet in the store. *)
Theorem create_succeeds_iff
    db message end_date start_date teacher_username now inserted_id :
  (∃ r db',
     create_announcement message end_date start_date teacher_username
       now inserted_id db = (Return r, db'))
  ↔ authorized db teacher_username ∧
    dates_accepted start_date end_date ∧
    unused_id (VObjectId inserted_id) db.
Proof.
  split.
  - intros (r & db' & Hrun).
    destruct (create_announcement_cases db message end_date start_date
                teacher_username now inserted_id)
      as [(e & _ & He)|(u & _ & Hauth & Hdates & Hunused & _)];
      [congruence|done].
  - intros (Hauth & (end_dt & Hend & Hstart) & Hunused).
    destruct Hauth as (u & -> & Hauth).
    assert (authorized db (Some u)) as Hauth' by (exists u; eauto).
    eexists _, _. by eapply create_announcement_success.
Qed.

(** X5. What a successful create stores and returns: one new record,
    appended after the stored ones, holding the message and the two dates
    exactly as supplied, the requester as [created_by], the current time
    as [created_at] and the generated ObjectId as [_id], and no other
    field; the response is that record with the [_id] as its 24-digit
    hexadecimal string.  The teachers are untouched. *)
Theorem create_stores_and_returns
    db message end_date start_date teacher_username now inserted_id r db' :
  create_announcement message end_date start_date teacher_username
    now inserted_id db = (Return r, db') →
  ∃ u stored,
    teacher_username = Some u ∧
    announcements_collection db' = (announcements_collection db ++ [stored])%list ∧
    teachers_collection db' = teachers_collection db ∧
    r = response_of stored ∧
    r !! "_id" = Some (VStr (hexlify inserted_id)) ∧
    stored !! "_id" = Some (VObjectId inserted_id) ∧
    stored !! "message" = Some (VStr message) ∧
    stored !! "start_date" = Some (value_of_param start_date) ∧
    stored !! "end_date" = Some (VStr end_date) ∧
    stored !! "created_by" = Some (VStr u) ∧
    stored !! "created_at" = Some (VStr now) ∧
    dom stored = {[ "_id"; "message"; "start_date"; "end_date";
                    "created_by"; "created_at" ]}.
Proof.
  intros Hrun.
  destruct (create_announcement_cases db message end_date start_date
              teacher_username now inserted_id)
    as [(e & _ & He)|(u & -> & _ & _ & _ & Hok)]; [congruence|].
  simpl in Hok. rewrite Hok in Hrun. injection Hrun as <- <-.
  destruct (new_announcement_lookup message start_date end_date u now)
    as (Hm & Hs & He & Hby & Hat & _).
  eexists u, _. split; [done|]. split; [done|]. split; [done|].
  split; [by rewrite response_of_insert_id|].
  split; [by rewrite lookup_insert_eq|].
  split; [by rewrite lookup_insert_eq|].
  rewrite !lookup_insert_ne by done.
  repeat (split; [done|]).
  unfold new_announcement. rewrite !dom_insert_L, dom_empty_L. set_solver.
Qed.

(** X6. For an authorized requester, a create whose [end_date] parses
    and whose [start_date] is supplied, non-empty and does not parse
    fails with InvalidArgument (400) and stores nothing. *)
Theorem create_unparseable_start_date_400
    db message end_date s teacher_username now inserted_id end_dt :
  authorized db teacher_username →
  fromisoformat (normalize_Z end_date) = Some end_dt →
  s ≠ "" →
  fromisoformat (normalize_Z s) = None →
  ∃ e,
    create_announcement message end_date (Some s) teacher_username
      now inserted_id db = (Raise e, db) ∧
    is_400 e.
Proof.
  intros Hauth Hend Hne Hs.
  destruct (create_announcement_bad_start_date db message end_date s
              teacher_username now inserted_id end_dt Hauth Hend Hne Hs)
    as [detail Hd].
  eexists. split; [exact Hd|]. by eexists.
Qed.

(** X7. For an authorized requester, a create whose two dates parse but
    cannot be compared (the comparison [start_dt >= end_dt] raises, as
    for a naive datetime against an aware one) ends in that [TypeError],
    which is no HTTP error of the handler; nothing is stored. *)
Theorem create_incomparable_dates_TypeError
    db message end_date s teacher_username now inserted_id start_dt end_dt :
  authorized db teacher_username →
  fromisoformat (normalize_Z s) = Some start_dt →
  fromisoformat (normalize_Z end_date) = Some end_dt →
  datetime_ge start_dt end_dt = None →
  create_announcement message end_date (Some s) teacher_username
    now inserted_id db = (Raise TypeError, db).
Proof.
  intros (u & _ & Hgate)%gate_pass Hs Hend Hge. unfold create_announcement.
  rewrite (bind_Return _ _ _ _ _ Hgate).
  assert (truthy_param (Some s) = true) as Htruthy
    by exact (parses_nonempty _ _ Hs).
  unfold bind, try_except, py_fromisoformat, py_datetime_ge, lift_option,
    raise, ret.
  rewrite Hend, Htruthy. simpl. rewrite Hs. simpl. by rewrite Hge.
Qed.

(** X8. A create ends in one of two ways only: it returns, one record
    more in the store; or it raises and the database is exactly as it
    was, the exception being an HTTP error with status 401 or 400, the
    [TypeError] of an impossible comparison, or the store's refusal of a
    duplicate identifier. *)
Theorem create_outcomes
    db message end_date start_date teacher_username now inserted_id :
  let '(o, db') :=
    create_announcement message end_date start_date teacher_username
      now inserted_id db in
  ((∃ r, o = Return r) ∧
   length (announcements_collection db')
   = S (length (announcements_collection db)) ∧
   teachers_collection db' = teachers_collection db) ∨
  (∃ e, o = Raise e ∧
        (is_401 e ∨ is_400 e ∨ e = TypeError ∨ e = DuplicateKeyError) ∧
        db' = db).
Proof.
  destruct (create_announcement_cases db message end_date start_date
              teacher_username now inserted_id)
    as [(e & He & ->)|(u & _ & _ & _ & _ & Hok)].
  - right. by exists e.
  - simpl in Hok. rewrite Hok. left. split; [by eexists|]. split; [|done].
    simpl. rewrite length_app. simpl. lia.
Qed.

End MoreProperties.

(** *** identifiers as text *)

Lemma hex_byte_roundtrip c :
  is_ascii_space (hex_digit (N_of_ascii c / 16)) = false ∧
  hex_value (hex_digit (N_of_ascii c / 16)) = Some (N_of_ascii c / 16)%N ∧
  hex_value (hex_digit (N_of_ascii c mod 16)) = Some (N_of_ascii c mod 16)%N ∧
  ascii_of_N (16 * (N_of_ascii c / 16) + N_of_ascii c mod 16) = c.
Proof.
  destruct c as [[] [] [] [] [] [] [] []]; vm_compute; by repeat split.
Qed.

Lemma bytes_fromhex_hexlify b : bytes_fromhex (hexlify b) = Some b.
Proof.
  induction b as [|c b IH]; [done|].
  destruct (hex_byte_roundtrip c) as (Hsp & Hhi & Hlo & Hc).
  change (hexlify (String c b))
    with (String (hex_digit (N_of_ascii c / 16))
            (String (hex_digit (N_of_ascii c mod 16)) (hexlify b))).
  cbn [bytes_fromhex]. rewrite Hsp, Hhi, Hlo, IH. simpl. by rewrite Hc.
Qed.

Lemma length_hexlify b : String.length (hexlify b) = (2 * String.length b)%nat.
Proof. induction b as [|c b IH]; [done|]. simpl in *. rewrite IH. lia. Qed.

(** The text of a 12-byte ObjectId reads back as that ObjectId. *)
Lemma ObjectId_hexlify b :
  String.length b = 12%nat → ObjectId (hexlify b) = Some (VObjectId b).
Proof.
  intros Hlen. unfold ObjectId. rewrite length_hexlify, Hlen. simpl.
  by rewrite bytes_fromhex_hexlify.
Qed.

Lemma set_announcements_twice c1 c2 db :
  set_announcements c2 (set_announcements c1 db) = set_announcements c2 db.
Proof. done. Qed.

(** *** listing *)

Lemma preserves_get_active P now : preserves P (get_active_announcements now).
Proof. unfold get_active_announcements, stringify_id. repeat preserves_step. Qed.

Lemma preserves_get_all P teacher_username :
  preserves P (get_all_announcements teacher_username).
Proof.
  unfold get_all_announcements, stringify_id.
  apply preserves_bind; [apply preserves_gate|intros ?].
  repeat preserves_step.
Qed.

(** X9. The two list handlers only read: whatever they answer, be it a
    list or an error, the database afterwards is the database before. *)
Theorem list_handlers_read_only db now teacher_username :
  (get_active_announcements now db).2 = db ∧
  (get_all_announcements teacher_username db).2 = db.
Proof.
  split.
  - destruct (get_active_announcements now db) as [o db'] eqn:E.
    by apply (preserves_get_active (λ d, d = db) now db o db').
  - destruct (get_all_announcements teacher_username db) as [o db'] eqn:E.
    by apply (preserves_get_all (λ d, d = db) teacher_username db o db').
Qed.

Lemma for_each_stringify_id_string_ids l db out db' :
  for_each stringify_id l db = (Return out, db') → Forall string_id out.
Proof.
  revert db out db'. induction l as [|d l IH]; intros db out db'; simpl.
  - by intros [= <- _].
  - unfold bind at 1. unfold stringify_id at 1.
    unfold bind, lift_option, ret, raise.
    destruct (d !! "_id") as [v|]; [|done].
    destruct (for_each stringify_id l db) as [[ys|e] db1] eqn:E; [|done].
    intros [= <- _]. constructor; [|by eapply IH].
    eexists. apply lookup_insert_eq.
Qed.

(** X10. Whenever list-active or list-all returns, every record in the
    answer carries its [_id] as a string: no ObjectId reaches the
    response. *)
Theorem lists_return_string_ids db now teacher_username :
  (∀ l db', get_active_announcements now db = (Return l, db') →
            Forall string_id l) ∧
  (∀ l db', get_all_announcements teacher_username db = (Return l, db') →
            Forall string_id l).
Proof.
  split; intros l db'.
  - unfold get_active_announcements, bind, announcements_find_sorted.
    apply for_each_stringify_id_string_ids.
  - unfold get_all_announcements.
    destruct (gate_cases db teacher_username)
      as [(_ & u & _ & Hgate)|(_ & e & _ & Hgate)].
    + rewrite (bind_Return _ _ _ _ _ Hgate).
      unfold bind, announcements_find_sorted.
      apply for_each_stringify_id_string_ids.
    + by rewrite (bind_Raise _ _ _ _ _ Hgate).
Qed.

(** X11. For an authorized teacher, on a store whose documents carry
    their [_id], everything list-active returns is also in what list-all
    returns. *)
Theorem active_listed_in_all db now teacher_username :
  Forall has_id (announcements_collection db) →
  authorized db teacher_username →
  ∃ active all,
    get_active_announcements now db = (Return active, db) ∧
    get_all_announcements teacher_username db = (Return all, db) ∧
    active ⊆+ all.
Proof.
  intros Hid (u & _ & Hgate)%gate_pass.
  destruct (listing (active_query now) db Hid) as (Hactive & Hpa & _).
  destruct (listing Q_all db Hid) as (Hall & Hpl & _).
  eexists _, _. split; [exact Hactive|]. split.
  { unfold get_all_announcements. rewrite (bind_Return _ _ _ _ _ Hgate).
    exact Hall. }
  rewrite Hpa, Hpl, find_all.
  apply fmap_submseteq, sublist_submseteq. unfold find. apply sublist_filter.
Qed.

(** *** the Z normalisation *)

Lemma occurs_app c a b : occurs c (a ++ b) ↔ occurs c a ∨ occurs c b.
Proof.
  induction a as [|x a IH].
  - simpl. change ("" ++ b) with b. tauto.
  - change (String x a ++ b) with (String x (a ++ b)). simpl. rewrite IH. tauto.
Qed.

(** X12. The normalisation rewrites every Z of the text, wherever it
    stands, not only a trailing one: no Z is left in what the parser is
    given, a text without Z is handed over as it is, and normalising
    twice changes nothing more. *)
Theorem normalize_Z_rewrites_every_Z s :
  ¬ occurs "Z" (normalize_Z s) ∧
  (¬ occurs "Z" s → normalize_Z s = s) ∧
  normalize_Z (normalize_Z s) = normalize_Z s.
Proof.
  assert (∀ t, ¬ occurs "Z" t → normalize_Z t = t) as Hid.
  { induction t as [|c t IH]; [done|]. simpl. intros Hno.
    unfold normalize_Z in *. simpl.
    destruct (Ascii.eqb_spec c "Z") as [->|Hc]; [tauto|].
    rewrite IH; [done|tauto]. }
  assert (¬ occurs "Z" (normalize_Z s)) as Hnone.
  { induction s as [|c s IH]; [simpl; tauto|]. unfold normalize_Z in *. simpl.
    destruct (Ascii.eqb_spec c "Z") as [->|Hc].
    - rewrite occurs_app. simpl. intros [H|H]; [|done].
      repeat (destruct H as [H|H]; [discriminate H|]). done.
    - simpl. intros [H|H]; [by apply Hc|done]. }
  split; [done|]. split; [apply Hid|]. by apply Hid.
Qed.

Section RoundTrips.
Context `{Datetime}.

(** *** create, then read or delete *)

(** X13. After a successful create on a store whose documents carry
    their [_id], list-all by the same requester succeeds and its answer
    contains the record that create returned, among one record more than
    before. *)
Theorem create_then_list_all
    db message end_date start_date teacher_username now inserted_id r db' :
  Forall has_id (announcements_collection db) →
  create_announcement message end_date start_date teacher_username
    now inserted_id db = (Return r, db') →
  ∃ l, get_all_announcements teacher_username db' = (Return l, db') ∧
       r ∈ l ∧
       length l = S (length (announcements_collection db)).
Proof.
  intros Hids Hrun.
  destruct (create_announcement_cases db message end_date start_date
              teacher_username now inserted_id)
    as [(e & _ & He)|(u & -> & Hauth & _ & _ & Hok)]; [congruence|].
  simpl in Hok. rewrite Hok in Hrun. injection Hrun as <- <-.
  set (a := new_announcement message start_date end_date u now).
  set (db' := set_announcements _ db).
  assert (Forall has_id (announcements_collection db')) as Hids'.
  { simpl. apply Forall_app. split; [done|]. repeat constructor.
    unfold has_id. by rewrite lookup_insert_eq. }
  assert (authorized db' (Some u)) as (u' & _ & Hgate)%gate_pass by exact Hauth.
  destruct (listing Q_all db' Hids') as (Hall & Hperm & _).
  rewrite find_all in Hall, Hperm.
  eexists. split.
  { unfold get_all_announcements. rewrite (bind_Return _ _ _ _ _ Hgate).
    exact Hall. }
  split.
  - rewrite Hperm. unfold db'. simpl. rewrite fmap_app. apply elem_of_app. right.
    apply list_elem_of_fmap. eexists. split; [|by left].
    by rewrite response_of_insert_id.
  - rewrite Hperm. simpl. rewrite length_fmap, length_app. simpl. lia.
Qed.

(** X14. The identifier that create returns, a generated ObjectId being
    12 bytes, is one delete accepts: deleting by it right after the
    create succeeds and leaves the database exactly as it was before the
    create. *)
Theorem create_then_delete_restores
    db message end_date start_date teacher_username now inserted_id r db' :
  String.length inserted_id = 12%nat →
  create_announcement message end_date start_date teacher_username
    now inserted_id db = (Return r, db') →
  ∃ id, r !! "_id" = Some (VStr id) ∧
        delete_announcement id teacher_username db'
        = (Return deleted_confirmation, db).
Proof.
  intros Hlen Hrun.
  destruct (create_announcement_cases db message end_date start_date
              teacher_username now inserted_id)
    as [(e & _ & He)|(u & -> & Hauth & _ & Hunused & Hok)]; [congruence|].
  simpl in Hok. rewrite Hok in Hrun. injection Hrun as <- <-.
  exists (hexlify inserted_id). split; [by rewrite lookup_insert_eq|].
  set (a := new_announcement message start_date end_date u now).
  apply unused_id_find_one in Hunused; [|done].
  rewrite find_one_None in Hunused.
  erewrite (delete_announcement_found _ (hexlify inserted_id) (Some u)
              (VObjectId inserted_id) (<["_id" := VObjectId inserted_id]> a)
              (announcements_collection db) []).
  - rewrite app_nil_r, set_announcements_twice. by rewrite set_announcements_id.
  - exact Hauth.
  - by apply ObjectId_hexlify.
  - done.
  - by apply Forall_forall.
  - apply matches_eq_Some; [done|]. by rewrite lookup_insert_eq.
Qed.

End RoundTrips.

Section UpdateBehaviour.
Context `{Datetime}.

(** *** update *)

Lemma build_update_fields_ok message end_date start_date db :
  (∀ e, end_date = Some e → parses e) →
  (∀ s, start_date = Some s → s ≠ "" → parses s) →
  build_update_fields message end_date start_date db
  = (Return (update_fields_of message end_date start_date), db).
Proof.
  intros Hend Hstart.
  unfold build_update_fields, update_fields_of, start_date_value, parses in *.
  unfold bind, try_except, py_fromisoformat, lift_option, raise, ret.
  destruct end_date as [e|].
  - destruct (Hend e eq_refl) as [ed ->]. simpl.
    destruct start_date as [s|]; [|done].
    destruct (String.eqb_spec s "") as [->|Hs]; [done|].
    by destruct (Hstart s eq_refl Hs) as [sd ->].
  - simpl. destruct start_date as [s|]; [|done].
    destruct (String.eqb_spec s "") as [->|Hs]; [done|].
    by destruct (Hstart s eq_refl Hs) as [sd ->].
Qed.

Lemma build_update_fields_bad message end_date start_date db :
  ((∃ e, end_date = Some e ∧ fromisoformat (normalize_Z e) = None) ∨
   (∃ s, start_date = Some s ∧ s ≠ "" ∧ fromisoformat (normalize_Z s) = None)) →
  ∃ err, is_400 err ∧
         build_update_fields message end_date start_date db = (Raise err, db).
Proof.
  intros Hbad.
  destruct (build_update_fields_run message end_date start_date db)
    as [(Hend & Hstart & _)|Hraise]; [|done].
  exfalso. destruct Hbad as [(e & -> & He)|(s & -> & Hs & Hnone)].
  - destruct (Hend e eq_refl) as [d Hd]. congruence.
  - destruct (Hstart s eq_refl Hs) as [d Hd]. congruence.
Qed.

(** The check of the final dates reads the database not at all. *)
Lemma validate_date_logic_stateless update_fields a db1 db2 :
  (validate_date_logic update_fields a db1).1
  = (validate_date_logic update_fields a db2).1.
Proof.
  unfold validate_date_logic, bind, try_except, py_normalize_Z,
    py_fromisoformat, py_datetime_ge, lift_option, raise, ret.
  by repeat (case_match; simplify_eq/=).
Qed.

Lemma validate_date_logic_outcomes update_fields a db :
  ∃ o, validate_date_logic update_fields a db = (o, db) ∧
       (o = Return tt ∨
        ∃ e, o = Raise e ∧ (is_400 e ∨ e = TypeError ∨ e = AttributeError)).
Proof.
  destruct (validate_date_logic update_fields a db) as [o db1] eqn:E.
  pose proof (validate_date_logic_pure _ _ _ _ _ E) as ->.
  exists o. split; [done|]. revert E.
  unfold validate_date_logic, bind, try_except, py_normalize_Z,
    py_fromisoformat, py_datetime_ge, lift_option, raise, ret.
  intros E.
  repeat (case_match; simplify_eq/=);
    first [ by left
          | right; eexists; split; [done|];
            first [ left; by eexists | right; left; done | right; right; done ] ].
Qed.

Lemma dict_get_union_id (fields a : document) :
  fields !! "_id" = None → dict_get "_id" (fields ∪ a) = dict_get "_id" a.
Proof. intros Hf. unfold dict_get. by rewrite lookup_union_r. Qed.

(** The ways an update ends. *)
Lemma update_announcement_cases
    db announcement_id message end_date start_date teacher_username :
  (∃ e, (is_401 e ∨ is_400 e ∨ is_404 e ∨ e = TypeError ∨ e = AttributeError) ∧
        update_announcement announcement_id message end_date start_date
          teacher_username db = (Raise e, db)) ∨
  (∃ oid a l1 l2,
     authorized db teacher_username ∧
     ObjectId announcement_id = Some oid ∧
     find_one (Q_eq "_id" oid) (announcements_collection db) = Some a ∧
     announcements_collection db = (l1 ++ a :: l2)%list ∧
     Forall (λ d, matches (Q_eq "_id" oid) d = false) l1 ∧
     matches (Q_eq "_id" oid) a = true ∧
     (∀ e, end_date = Some e → parses e) ∧
     (∀ s, start_date = Some s → s ≠ "" → parses s) ∧
     let fields := update_fields_of message end_date start_date in
     validate_date_logic fields a db = (Return tt, db) ∧
     update_announcement announcement_id message end_date start_date
       teacher_username db
     = (Return (response_of (fields ∪ a)),
        set_announcements (l1 ++ (fields ∪ a) :: l2) db)).
Proof.
  destruct (gate_cases db teacher_username)
    as [[Hauth _]|(_ & e & H401 & Hgate)].
  2: { left. exists e. split; [by left|].
       unfold update_announcement. by rewrite (bind_Raise _ _ _ _ _ Hgate). }
  destruct (ObjectId announcement_id) as [oid|] eqn:Hid.
  2: { left. destruct (update_announcement_invalid_id db announcement_id message
                         end_date start_date teacher_username Hauth Hid)
         as [d Hd].
       eexists. split; [|exact Hd]. right; left. by eexists. }
  destruct (find_one (Q_eq "_id" oid) (announcements_collection db))
    as [a|] eqn:Hfind.
  2: { left. destruct (ObjectId_Some _ _ Hid) as [b ->].
       apply unused_id_find_one in Hfind; [|done].
       destruct (update_announcement_not_found db announcement_id message
                   end_date start_date teacher_username _ Hauth Hid Hfind)
         as [d Hd].
       eexists. split; [|exact Hd]. right; right; left. by eexists. }
  rewrite (update_announcement_run _ _ _ _ _ _ _ _ Hauth Hid Hfind).
  destruct (build_update_fields_run message end_date start_date db)
    as [(Hend & Hstart & Hb)|(err & H400 & Hb)]; rewrite Hb.
  2: { left. exists err. split; [by right; left|done]. }
  destruct (validate_date_logic_outcomes
              (update_fields_of message end_date start_date) a db)
    as (o & Hv & [->|(err & -> & Herr)]); rewrite Hv.
  2: { left. exists err. split; [|done].
       destruct Herr as [?|[?|?]]; tauto. }
  right. destruct (find_one_split _ _ _ Hfind) as (l1 & l2 & Hc & Hl1 & Ha).
  assert (update_one_set (Q_eq "_id" oid)
            (update_fields_of message end_date start_date)
            (announcements_collection db)
          = (l1 ++ (update_fields_of message end_date start_date ∪ a) :: l2)%list)
    as -> by (rewrite Hc; by apply update_one_set_first).
  exists oid, a, l1, l2. repeat (split; [done|]). simpl. by split.
Qed.

(** X15. For an authorized teacher and an existing record, an update
    that supplies an [end_date] that does not parse, or a non-empty
    [start_date] that does not parse, fails with InvalidArgument (400)
    and leaves the store as it was, whatever else it supplies. *)
Theorem update_unparseable_supplied_date_400
    db announcement_id message end_date start_date teacher_username oid a :
  authorized db teacher_username →
  ObjectId announcement_id = Some oid →
  find_one (Q_eq "_id" oid) (announcements_collection db) = Some a →
  ((∃ e, end_date = Some e ∧ fromisoformat (normalize_Z e) = None) ∨
   (∃ s, start_date = Some s ∧ s ≠ "" ∧ fromisoformat (normalize_Z s) = None)) →
  ∃ err,
    update_announcement announcement_id message end_date start_date
      teacher_username db = (Raise err, db) ∧
    is_400 err.
Proof.
  intros Hauth Hid Hfind Hbad.
  rewrite (update_announcement_run _ _ _ _ _ _ _ _ Hauth Hid Hfind).
  destruct (build_update_fields_bad message end_date start_date db Hbad)
    as (err & H400 & ->).
  by exists err.
Qed.

(** X16. An update ends in one of two ways only: it returns, the store
    holding the same number of records under the same identifiers in the
    same order and the teachers untouched; or it raises and the database
    is exactly as it was, the exception being an HTTP error with status
    401, 400 or 404, or a [TypeError] or [AttributeError] out of the
    check of the final dates. *)
Theorem update_outcomes
    db announcement_id message end_date start_date teacher_username :
  let '(o, db') :=
    update_announcement announcement_id message end_date start_date
      teacher_username db in
  ((∃ r, o = Return r) ∧
   dict_get "_id" <$> announcements_collection db'
   = dict_get "_id" <$> announcements_collection db ∧
   teachers_collection db' = teachers_collection db) ∨
  (∃ e, o = Raise e ∧
        (is_401 e ∨ is_400 e ∨ is_404 e ∨ e = TypeError ∨ e = AttributeError) ∧
        db' = db).
Proof.
  destruct (update_announcement_cases db announcement_id message end_date
              start_date teacher_username)
    as [(e & He & ->)
       |(oid & a & l1 & l2 & _ & _ & _ & Hc & _ & _ & _ & _ & _ & ->)].
  - right. by exists e.
  - left. split; [by eexists|]. split; [|done]. simpl.
    rewrite Hc, !fmap_app, !fmap_cons. do 2 f_equal.
    apply dict_get_union_id. by rewrite update_fields_of_lookup.
Qed.

(** X17. The check of the final dates is skipped when one of them does
    not parse: if the final [start_date] is a string that does not parse,
    or the final [start_date] is null or a string and the final
    [end_date] is a string that does not parse, then an update whose
    supplied dates are well formed succeeds and writes its fields, in
    whatever order the two dates stand. *)
Theorem update_skips_check_on_unparseable_final_date
    db announcement_id message end_date start_date teacher_username oid a :
  authorized db teacher_username →
  ObjectId announcement_id = Some oid →
  find_one (Q_eq "_id" oid) (announcements_collection db) = Some a →
  (∀ e, end_date = Some e → parses e) →
  (∀ s, start_date = Some s → s ≠ "" → parses s) →
  ((∃ s, final_start_date start_date a = VStr s ∧
         fromisoformat (normalize_Z s) = None) ∨
   (∃ e, final_end_date end_date a = VStr e ∧
         fromisoformat (normalize_Z e) = None ∧
         ∀ o, final_start_date start_date a ≠ VObjectId o)) →
  ∃ db',
    update_announcement announcement_id message end_date start_date
      teacher_username db
    = (Return (response_of (update_fields_of message end_date start_date ∪ a)),
       db').
Proof.
  intros Hauth Hid Hfind Hend Hstart Hbypass.
  rewrite (update_announcement_run _ _ _ _ _ _ _ _ Hauth Hid Hfind).
  rewrite (build_update_fields_ok _ _ _ _ Hend Hstart).
  assert (validate_date_logic (update_fields_of message end_date start_date) a db
          = (Return tt, db)) as ->; [|by eexists].
  unfold validate_date_logic.
  rewrite final_start_date_get, final_end_date_get.
  unfold bind, try_except, py_normalize_Z, py_fromisoformat, py_datetime_ge,
    lift_option, raise, ret.
  destruct Hbypass as [(s & -> & Hs)|(e & -> & He & Hnot)].
  - destruct (truthy (VStr s) && truthy _); [|done]. by rewrite Hs.
  - destruct (final_start_date start_date a) as [|s|o];
      [done| |by destruct (Hnot o)].
    destruct (truthy (VStr s) && truthy _); [|done].
    destruct (fromisoformat (normalize_Z s)); [|done]. simpl. by rewrite He.
Qed.

(** X18. An update on an existing record whose final dates both parse
    but cannot be compared (the comparison raises, as for a naive
    datetime against an aware one) ends in that [TypeError], which is no
    HTTP error of the handler; the store is left as it was. *)
Theorem update_incomparable_dates_TypeError
    db announcement_id message end_date start_date teacher_username
    oid a s e start_dt end_dt :
  authorized db teacher_username →
  ObjectId announcement_id = Some oid →
  find_one (Q_eq "_id" oid) (announcements_collection db) = Some a →
  final_start_date start_date a = VStr s →
  final_end_date end_date a = VStr e →
  fromisoformat (normalize_Z s) = Some start_dt →
  fromisoformat (normalize_Z e) = Some end_dt →
  datetime_ge start_dt end_dt = None →
  update_announcement announcement_id message end_date start_date
    teacher_username db = (Raise TypeError, db).
Proof.
  intros Hauth Hid Hfind Hfs Hfe Hs He Hge.
  rewrite (update_announcement_run _ _ _ _ _ _ _ _ Hauth Hid Hfind).
  rewrite build_update_fields_ok.
  - assert (validate_date_logic
              (update_fields_of message end_date start_date) a db
            = (Raise TypeError, db)) as ->; [|done].
    unfold validate_date_logic.
    rewrite final_start_date_get, final_end_date_get, Hfs, Hfe.
    rewrite (truthy_parses _ _ Hs), (truthy_parses _ _ He).
    unfold bind, try_except, py_normalize_Z, py_fromisoformat, py_datetime_ge,
      lift_option, raise, ret.
    simpl. by rewrite Hs, He, Hge.
  - intros e' ->. simpl in Hfe. injection Hfe as ->. by eexists.
  - intros s' -> Hne. unfold final_start_date, start_date_value in Hfs.
    apply String.eqb_neq in Hne. rewrite Hne in Hfs.
    injection Hfs as ->. by eexists.
Qed.

(** X19. An update that supplies no field writes nothing: on an existing
    record and for an authorized teacher the database is left as it was,
    and if the call returns, it returns the stored record (its [_id] as a
    string).  The stored dates are checked all the same, so the call can
    still fail. *)
Theorem update_without_fields_reads
    db announcement_id teacher_username oid a :
  authorized db teacher_username →
  ObjectId announcement_id = Some oid →
  find_one (Q_eq "_id" oid) (announcements_collection db) = Some a →
  ∃ o, update_announcement announcement_id None None None teacher_username db
       = (o, db) ∧
       (∀ r, o = Return r → r = response_of a) ∧
       (o = Return (response_of a)
        ↔ validate_date_logic ∅ a db = (Return tt, db)).
Proof.
  intros Hauth Hid Hfind.
  rewrite (update_announcement_run _ _ _ _ _ _ _ _ Hauth Hid Hfind).
  rewrite build_update_fields_ok by done.
  change (update_fields_of None None None) with (∅ : document).
  destruct (validate_date_logic_outcomes ∅ a db)
    as (o & Hv & [->|(err & -> & Herr)]); rewrite Hv.
  - rewrite update_one_set_empty, set_announcements_id, (left_id_L ∅ (∪)).
    eexists. split; [done|]. split; [by intros r [= <-]|done].
  - eexists. split; [done|]. split; [done|]. split; intros [=].
Qed.

(** X20. A successful update is idempotent: sent again with the same
    arguments to the database it produced, it returns the same record
    and leaves that database as it is. *)
Theorem update_idempotent
    db announcement_id message end_date start_date teacher_username r db' :
  update_announcement announcement_id message end_date start_date
    teacher_username db = (Return r, db') →
  update_announcement announcement_id message end_date start_date
    teacher_username db' = (Return r, db').
Proof.
  intros Hrun.
  destruct (update_announcement_cases db announcement_id message end_date
              start_date teacher_username)
    as [(e & _ & He)
       |(oid & a & l1 & l2 & Hauth & Hid & Hfind & Hc & Hl1 & Ha & Hend
           & Hstart & Hv & Hok)]; [congruence|].
  simpl in Hv, Hok. rewrite Hok in Hrun. injection Hrun as <- <-.
  set (fields := update_fields_of message end_date start_date) in *.
  set (db' := set_announcements (l1 ++ (fields ∪ a) :: l2) db).
  destruct (ObjectId_Some _ _ Hid) as [b ->].
  assert (fields !! "_id" = None) as Hnoid
    by (unfold fields; by rewrite update_fields_of_lookup).
  assert (matches (Q_eq "_id" (VObjectId b)) (fields ∪ a) = true) as Ha'.
  { apply matches_eq_Some; [done|]. apply matches_eq_Some in Ha; [|done].
    by rewrite lookup_union_r. }
  assert (find_one (Q_eq "_id" (VObjectId b)) (announcements_collection db')
          = Some (fields ∪ a)) as Hfind' by (by apply find_one_first).
  assert (authorized db' teacher_username) as Hauth' by exact Hauth.
  rewrite (update_announcement_run _ _ _ _ _ _ _ _ Hauth' Hid Hfind').
  rewrite (build_update_fields_ok _ _ _ _ Hend Hstart). fold fields.
  assert (validate_date_logic fields (fields ∪ a) db' = (Return tt, db')) as ->.
  { destruct (validate_date_logic fields (fields ∪ a) db') as [o db1] eqn:E.
    pose proof (validate_date_logic_pure _ _ _ _ _ E) as ->. f_equal.
    assert (validate_date_logic fields (fields ∪ a) db'
            = validate_date_logic fields a db') as Hsame.
    { unfold validate_date_logic, dict_get_default, dict_get.
      destruct (fields !! "start_date") as [v|] eqn:E1,
               (fields !! "end_date") as [w|] eqn:E2; simpl;
        rewrite ?(lookup_union_r fields a "start_date" E1),
                ?(lookup_union_r fields a "end_date" E2); done. }
    pose proof (validate_date_logic_stateless fields a db' db) as Hst.
    rewrite <- Hsame, E, Hv in Hst. exact Hst. }
  rewrite (assoc_L (∪)), (idemp_L (∪)). f_equal.
  simpl. rewrite (update_one_set_first _ _ _ _ _ Hl1 Ha').
  by rewrite (assoc_L (∪)), (idemp_L (∪)).
Qed.

End UpdateBehaviour.

(** *** the shape of the store *)

Lemma ids_unique_append c (a : document) oid :
  NoDup (dict_get "_id" <$> c) →
  oid ≠ VNone →
  (∀ d, d ∈ c → d !! "_id" ≠ Some oid) →
  NoDup (dict_get "_id" <$> (c ++ [<["_id" := oid]> a])%list).
Proof.
  intros Hnd Hoid Hunused. rewrite fmap_app. apply NoDup_app.
  split; [done|]. split; [|apply NoDup_singleton].
  intros v Hv Hin. simpl in Hin. apply list_elem_of_singleton in Hin as ->.
  apply list_elem_of_fmap in Hv as (d & Hd & Hdc).
  apply (Hunused d Hdc). revert Hd. unfold dict_get.
  rewrite lookup_insert_eq. simpl.
  destruct (d !! "_id") as [w|]; simpl; congruence.
Qed.

Lemma ids_unique_remove l1 (a : document) l2 :
  NoDup (dict_get "_id" <$> (l1 ++ a :: l2)%list) →
  NoDup (dict_get "_id" <$> (l1 ++ l2)%list).
Proof.
  rewrite !fmap_app, fmap_cons, !NoDup_app, NoDup_cons.
  intros (H1 & H12 & _ & H2). split; [done|]. split; [|done].
  intros x Hx Hx2. apply (H12 x Hx). by right.
Qed.

Section Shape.
Context `{Datetime}.

(** X21. Every handler keeps the store well formed: if every stored
    announcement has an [_id] and no two have the same, that is still so
    after the call, whatever it answered. *)
Theorem handlers_keep_store_well_formed :
  (∀ now, preserves Scenario.well_formed (get_active_announcements now)) ∧
  (∀ teacher_username,
     preserves Scenario.well_formed (get_all_announcements teacher_username)) ∧
  (∀ message end_date start_date teacher_username now inserted_id,
     preserves Scenario.well_formed
       (create_announcement message end_date start_date teacher_username
          now inserted_id)) ∧
  (∀ announcement_id message end_date start_date teacher_username,
     preserves Scenario.well_formed
       (update_announcement announcement_id message end_date start_date
          teacher_username)) ∧
  (∀ announcement_id teacher_username,
     preserves Scenario.well_formed
       (delete_announcement announcement_id teacher_username)).
Proof.
  destruct handlers_keep_ids as (_ & _ & Hcreate & Hupdate & Hdelete).
  split; [|split; [|split; [|split]]].
  - intros now. apply preserves_get_active.
  - intros teacher_username. apply preserves_get_all.
  - intros message end_date start_date teacher_username now inserted_id
      db o db' [Hp Hu] Hrun.
    split; [by eapply Hcreate|].
    destruct (create_announcement_cases db message end_date start_date
                teacher_username now inserted_id)
      as [(e & _ & He)|(u & _ & _ & _ & Hunused & Hok)].
    + rewrite He in Hrun. by injection Hrun as <- <-.
    + simpl in Hok. rewrite Hok in Hrun. injection Hrun as <- <-.
      unfold ids_unique. simpl. by apply ids_unique_append.
  - intros announcement_id message end_date start_date teacher_username
      db o db' [Hp Hu] Hrun.
    split; [by eapply Hupdate|].
    destruct (update_announcement_cases db announcement_id message end_date
                start_date teacher_username)
      as [(e & _ & He)
         |(oid & a & l1 & l2 & _ & _ & _ & Hc & _ & _ & _ & _ & _ & Hok)].
    + rewrite He in Hrun. by injection Hrun as <- <-.
    + rewrite Hok in Hrun. injection Hrun as <- <-.
      unfold ids_unique in *. simpl. rewrite Hc in Hu.
      rewrite fmap_app, fmap_cons in *.
      rewrite dict_get_union_id; [done|]. by rewrite update_fields_of_lookup.
  - intros announcement_id teacher_username db o db' [Hp Hu] Hrun.
    split; [by eapply Hdelete|].
    destruct (delete_announcement_cases db announcement_id teacher_username)
      as [(e & _ & He)|(oid & a & l1 & l2 & _ & _ & Hc & _ & _ & Hok)].
    + rewrite He in Hrun. by injection Hrun as <- <-.
    + rewrite Hok in Hrun. injection Hrun as <- <-.
      unfold ids_unique in *. simpl. rewrite Hc in Hu.
      by eapply ids_unique_remove.
Qed.

End Shape.

(** ** The further properties on the worked databases *)

Lemma example_db_well_formed : Scenario.well_formed Example.db.
Proof.
  split; [exact example_db_has_ids|].
  unfold ids_unique. simpl. apply NoDup_cons. split.
  - intros Hin. apply list_elem_of_singleton in Hin. by vm_compute in Hin.
  - apply NoDup_singleton.
Qed.

Lemma example_create_runs :
  create_announcement "Welcome back" "2030-01-01T00:00:00" None (Some "mchen")
    "2024-12-24T10:00:00" Example.oid3 Example.db
  = (Return Scenario.returned, Scenario.after_create).
Proof. vm_compute; reflexivity. Qed.

Lemma seeded_mchen_authorized : authorized Seeded.db (Some "mchen").
Proof. exact example_mchen_authorized. Qed.

Lemma delete_example :
  authorized Example.db (Some "mchen") ∧
  ObjectId "507f1f77bcf86cd799439011" = Some (VObjectId Example.oid1) ∧
  find_one (Q_eq "_id" (VObjectId Example.oid1))
    (announcements_collection Example.db) = Some Example.sports_day ∧
  ∃ l1 l2 db',
    announcements_collection Example.db = (l1 ++ Example.sports_day :: l2)%list ∧
    Forall (λ d, d !! "_id" ≠ Some (VObjectId Example.oid1)) l1 ∧
    delete_announcement "507f1f77bcf86cd799439011" (Some "mchen") Example.db
    = (Return deleted_confirmation, db') ∧
    announcements_collection db' = (l1 ++ l2)%list ∧
    teachers_collection db' = teachers_collection Example.db.
Proof.
  assert (ObjectId "507f1f77bcf86cd799439011" = Some (VObjectId Example.oid1))
    as Hid by (vm_compute; reflexivity).
  assert (find_one (Q_eq "_id" (VObjectId Example.oid1))
            (announcements_collection Example.db) = Some Example.sports_day)
    as Hfind by (vm_compute; reflexivity).
  split; [exact example_mchen_authorized|]. split; [exact Hid|].
  split; [exact Hfind|].
  exact (delete_removes_the_record Example.db "507f1f77bcf86cd799439011"
           (Some "mchen") (VObjectId Example.oid1) Example.sports_day
           example_mchen_authorized Hid Hfind).
Defined.

Lemma delete_twice_example :
  ids_unique Example.db ∧
  delete_announcement "507f1f77bcf86cd799439011" (Some "mchen") Example.db
  = (Return deleted_confirmation,
     set_announcements [Example.library_closed] Example.db) ∧
  (∃ e, delete_announcement "507f1f77bcf86cd799439011" (Some "mchen")
          (set_announcements [Example.library_closed] Example.db)
        = (Raise e, set_announcements [Example.library_closed] Example.db) ∧
        is_404 e) ∧
  (∀ message end_date start_date,
     ∃ e, update_announcement "507f1f77bcf86cd799439011" message end_date
            start_date (Some "mchen")
            (set_announcements [Example.library_closed] Example.db)
          = (Raise e, set_announcements [Example.library_closed] Example.db) ∧
          is_404 e).
Proof.
  assert (delete_announcement "507f1f77bcf86cd799439011" (Some "mchen")
            Example.db
          = (Return deleted_confirmation,
             set_announcements [Example.library_closed] Example.db)) as Hrun
    by (vm_compute; reflexivity).
  split; [exact (proj2 example_db_well_formed)|]. split; [exact Hrun|].
  exact (delete_then_not_found Example.db "507f1f77bcf86cd799439011"
           (Some "mchen") _ _ (proj2 example_db_well_formed) Hrun).
Defined.

Lemma create_record_example :
  create_announcement "Welcome back" "2030-01-01T00:00:00" None (Some "mchen")
    "2024-12-24T10:00:00" Example.oid3 Example.db
  = (Return Scenario.returned, Scenario.after_create) ∧
  ∃ u stored,
    Some "mchen" = Some u ∧
    announcements_collection Scenario.after_create
    = (announcements_collection Example.db ++ [stored])%list ∧
    teachers_collection Scenario.after_create = teachers_collection Example.db ∧
    Scenario.returned = response_of stored ∧
    Scenario.returned !! "_id" = Some (VStr (hexlify Example.oid3)) ∧
    stored !! "_id" = Some (VObjectId Example.oid3) ∧
    stored !! "message" = Some (VStr "Welcome back") ∧
    stored !! "start_date" = Some (value_of_param None) ∧
    stored !! "end_date" = Some (VStr "2030-01-01T00:00:00") ∧
    stored !! "created_by" = Some (VStr u) ∧
    stored !! "created_at" = Some (VStr "2024-12-24T10:00:00") ∧
    dom stored = {[ "_id"; "message"; "start_date"; "end_date";
                    "created_by"; "created_at" ]}.
Proof.
  split; [exact example_create_runs|].
  exact (create_stores_and_returns Example.db "Welcome back"
           "2030-01-01T00:00:00" None (Some "mchen") "2024-12-24T10:00:00"
           Example.oid3 _ _ example_create_runs).
Defined.

Lemma create_unparseable_start_example :
  authorized Example.db (Some "mchen") ∧
  fromisoformat (normalize_Z "2030-01-01T00:00:00")
    = Some (Example.naive 2030 1 1 0 0 0) ∧
  "next week" ≠ "" ∧
  fromisoformat (normalize_Z "next week") = None ∧
  ∃ e,
    create_announcement "M" "2030-01-01T00:00:00" (Some "next week")
      (Some "mchen") "2024-12-24T10:00:00" Example.oid3 Example.db
    = (Raise e, Example.db) ∧
    is_400 e.
Proof.
  assert ("next week" ≠ "") as Hne by discriminate.
  split; [exact example_mchen_authorized|].
  split; [vm_compute; reflexivity|]. split; [exact Hne|].
  split; [vm_compute; reflexivity|].
  apply (create_unparseable_start_date_400 Example.db "M" "2030-01-01T00:00:00"
           "next week" (Some "mchen") "2024-12-24T10:00:00" Example.oid3
           (Example.naive 2030 1 1 0 0 0) example_mchen_authorized);
    [vm_compute; reflexivity|exact Hne|vm_compute; reflexivity].
Defined.

Lemma create_incomparable_example :
  authorized Example.db (Some "mchen") ∧
  fromisoformat (normalize_Z "2031-01-01T00:00:00")
    = Some (Example.naive 2031 1 1 0 0 0) ∧
  fromisoformat (normalize_Z "2030-01-01T00:00:00Z")
    = Some (Example.utc 2030 1 1 0 0 0) ∧
  datetime_ge (Example.naive 2031 1 1 0 0 0) (Example.utc 2030 1 1 0 0 0) = None ∧
  create_announcement "M" "2030-01-01T00:00:00Z" (Some "2031-01-01T00:00:00")
    (Some "mchen") "2024-12-24T10:00:00" Example.oid3 Example.db
  = (Raise TypeError, Example.db).
Proof.
  split; [exact example_mchen_authorized|].
  repeat (split; [vm_compute; reflexivity|]).
  apply (create_incomparable_dates_TypeError Example.db "M"
           "2030-01-01T00:00:00Z" "2031-01-01T00:00:00" (Some "mchen")
           "2024-12-24T10:00:00" Example.oid3
           (Example.naive 2031 1 1 0 0 0) (Example.utc 2030 1 1 0 0 0)
           example_mchen_authorized); vm_compute; reflexivity.
Defined.

Lemma active_in_all_example :
  Forall has_id (announcements_collection Example.db) ∧
  authorized Example.db (Some "mchen") ∧
  ∃ active all,
    get_active_announcements "2025-03-01T12:00:00" Example.db
    = (Return active, Example.db) ∧
    get_all_announcements (Some "mchen") Example.db = (Return all, Example.db) ∧
    active ⊆+ all.
Proof.
  split; [exact example_db_has_ids|]. split; [exact example_mchen_authorized|].
  exact (active_listed_in_all Example.db "2025-03-01T12:00:00" (Some "mchen")
           example_db_has_ids example_mchen_authorized).
Defined.

Lemma create_then_list_all_example :
  Forall has_id (announcements_collection Example.db) ∧
  create_announcement "Welcome back" "2030-01-01T00:00:00" None (Some "mchen")
    "2024-12-24T10:00:00" Example.oid3 Example.db
  = (Return Scenario.returned, Scenario.after_create) ∧
  ∃ l, get_all_announcements (Some "mchen") Scenario.after_create
       = (Return l, Scenario.after_create) ∧
       Scenario.returned ∈ l ∧
       length l = S (length (announcements_collection Example.db)).
Proof.
  split; [exact example_db_has_ids|]. split; [exact example_create_runs|].
  exact (create_then_list_all Example.db "Welcome back" "2030-01-01T00:00:00"
           None (Some "mchen") "2024-12-24T10:00:00" Example.oid3 _ _
           example_db_has_ids example_create_runs).
Defined.

Lemma create_then_delete_example :
  String.length Example.oid3 = 12%nat ∧
  create_announcement "Welcome back" "2030-01-01T00:00:00" None (Some "mchen")
    "2024-12-24T10:00:00" Example.oid3 Example.db
  = (Return Scenario.returned, Scenario.after_create) ∧
  ∃ id, Scenario.returned !! "_id" = Some (VStr id) ∧
        delete_announcement id (Some "mchen") Scenario.after_create
        = (Return deleted_confirmation, Example.db).
Proof.
  assert (String.length Example.oid3 = 12%nat) as Hlen by reflexivity.
  split; [exact Hlen|]. split; [exact example_create_runs|].
  exact (create_then_delete_restores Example.db "Welcome back"
           "2030-01-01T00:00:00" None (Some "mchen") "2024-12-24T10:00:00"
           Example.oid3 _ _ Hlen example_create_runs).
Defined.

Lemma update_unparseable_end_example :
  authorized Example.db (Some "mchen") ∧
  ObjectId "507f1f77bcf86cd799439011" = Some (VObjectId Example.oid1) ∧
  find_one (Q_eq "_id" (VObjectId Example.oid1))
    (announcements_collection Example.db) = Some Example.sports_day ∧
  ((∃ e, Some "soon" = Some e ∧ fromisoformat (normalize_Z e) = None) ∨
   (∃ s, @None string = Some s ∧ s ≠ "" ∧
         fromisoformat (normalize_Z s) = None)) ∧
  ∃ err,
    update_announcement "507f1f77bcf86cd799439011" (Some "M") (Some "soon")
      None (Some "mchen") Example.db = (Raise err, Example.db) ∧
    is_400 err.
Proof.
  assert (ObjectId "507f1f77bcf86cd799439011" = Some (VObjectId Example.oid1))
    as Hid by (vm_compute; reflexivity).
  assert (find_one (Q_eq "_id" (VObjectId Example.oid1))
            (announcements_collection Example.db) = Some Example.sports_day)
    as Hfind by (vm_compute; reflexivity).
  assert ((∃ e, Some "soon" = Some e ∧ fromisoformat (normalize_Z e) = None) ∨
          (∃ s, @None string = Some s ∧ s ≠ "" ∧
                fromisoformat (normalize_Z s) = None)) as Hbad.
  { left. exists "soon". split; [reflexivity|vm_compute; reflexivity]. }
  split; [exact example_mchen_authorized|]. split; [exact Hid|].
  split; [exact Hfind|]. split; [exact Hbad|].
  exact (update_unparseable_supplied_date_400 Example.db
           "507f1f77bcf86cd799439011" (Some "M") (Some "soon") None
           (Some "mchen") (VObjectId Example.oid1) Example.sports_day
           example_mchen_authorized Hid Hfind Hbad).
Defined.

Lemma update_bypass_example :
  authorized Seeded.db (Some "mchen") ∧
  ObjectId "507f1f77bcf86cd799439011" = Some (VObjectId Example.oid1) ∧
  find_one (Q_eq "_id" (VObjectId Example.oid1))
    (announcements_collection Seeded.db) = Some Seeded.next_week ∧
  (∀ e, Some "2020-01-01T00:00:00" = Some e → parses e) ∧
  (∀ s, @None string = Some s → s ≠ "" → parses s) ∧
  ((∃ s, final_start_date None Seeded.next_week = VStr s ∧
         fromisoformat (normalize_Z s) = None) ∨
   (∃ e, final_end_date (Some "2020-01-01T00:00:00") Seeded.next_week = VStr e ∧
         fromisoformat (normalize_Z e) = None ∧
         ∀ o, final_start_date None Seeded.next_week ≠ VObjectId o)) ∧
  ∃ db',
    update_announcement "507f1f77bcf86cd799439011" None
      (Some "2020-01-01T00:00:00") None (Some "mchen") Seeded.db
    = (Return (response_of
                 (update_fields_of None (Some "2020-01-01T00:00:00") None
                    ∪ Seeded.next_week)),
       db').
Proof.
  assert (ObjectId "507f1f77bcf86cd799439011" = Some (VObjectId Example.oid1))
    as Hid by (vm_compute; reflexivity).
  assert (find_one (Q_eq "_id" (VObjectId Example.oid1))
            (announcements_collection Seeded.db) = Some Seeded.next_week)
    as Hfind by (vm_compute; reflexivity).
  assert (∀ e, Some "2020-01-01T00:00:00" = Some e → parses e) as Hend.
  { intros e [= <-]. exists (Example.naive 2020 1 1 0 0 0).
    vm_compute; reflexivity. }
  assert (∀ s, @None string = Some s → s ≠ "" → parses s) as Hstart
    by (intros s [=]).
  assert ((∃ s, final_start_date None Seeded.next_week = VStr s ∧
                fromisoformat (normalize_Z s) = None) ∨
          (∃ e, final_end_date (Some "2020-01-01T00:00:00") Seeded.next_week
                = VStr e ∧
                fromisoformat (normalize_Z e) = None ∧
                ∀ o, final_start_date None Seeded.next_week ≠ VObjectId o))
    as Hbypass.
  { left. exists "next week". split; vm_compute; reflexivity. }
  split; [exact seeded_mchen_authorized|]. split; [exact Hid|].
  split; [exact Hfind|]. split; [exact Hend|]. split; [exact Hstart|].
  split; [exact Hbypass|].
  exact (update_skips_check_on_unparseable_final_date Seeded.db
           "507f1f77bcf86cd799439011" None (Some "2020-01-01T00:00:00") None
           (Some "mchen") (VObjectId Example.oid1) Seeded.next_week
           seeded_mchen_authorized Hid Hfind Hend Hstart Hbypass).
Defined.

Lemma update_incomparable_example :
  authorized Seeded.db (Some "mchen") ∧
  ObjectId "507f1f77bcf86cd799439012" = Some (VObjectId Example.oid2) ∧
  find_one (Q_eq "_id" (VObjectId Example.oid2))
    (announcements_collection Seeded.db) = Some Seeded.new_year ∧
  final_start_date (Some "2031-01-01T00:00:00") Seeded.new_year
    = VStr "2031-01-01T00:00:00" ∧
  final_end_date None Seeded.new_year = VStr "2030-01-01T00:00:00Z" ∧
  fromisoformat (normalize_Z "2031-01-01T00:00:00")
    = Some (Example.naive 2031 1 1 0 0 0) ∧
  fromisoformat (normalize_Z "2030-01-01T00:00:00Z")
    = Some (Example.utc 2030 1 1 0 0 0) ∧
  datetime_ge (Example.naive 2031 1 1 0 0 0) (Example.utc 2030 1 1 0 0 0) = None ∧
  update_announcement "507f1f77bcf86cd799439012" None None
    (Some "2031-01-01T00:00:00") (Some "mchen") Seeded.db
  = (Raise TypeError, Seeded.db).
Proof.
  split; [exact seeded_mchen_authorized|].
  repeat (split; [vm_compute; reflexivity|]).
  apply (update_incomparable_dates_TypeError Seeded.db
           "507f1f77bcf86cd799439012" None None (Some "2031-01-01T00:00:00")
           (Some "mchen") (VObjectId Example.oid2) Seeded.new_year
           "2031-01-01T00:00:00" "2030-01-01T00:00:00Z"
           (Example.naive 2031 1 1 0 0 0) (Example.utc 2030 1 1 0 0 0)
           seeded_mchen_authorized); vm_compute; reflexivity.
Defined.

Lemma update_without_fields_example :
  authorized Example.db (Some "mchen") ∧
  ObjectId "507f1f77bcf86cd799439011" = Some (VObjectId Example.oid1) ∧
  find_one (Q_eq "_id" (VObjectId Example.oid1))
    (announcements_collection Example.db) = Some Example.sports_day ∧
  ∃ o, update_announcement "507f1f77bcf86cd799439011" None None None
         (Some "mchen") Example.db = (o, Example.db) ∧
       (∀ r, o = Return r → r = response_of Example.sports_day) ∧
       (o = Return (response_of Example.sports_day)
        ↔ validate_date_logic ∅ Example.sports_day Example.db
          = (Return tt, Example.db)).
Proof.
  assert (ObjectId "507f1f77bcf86cd799439011" = Some (VObjectId Example.oid1))
    as Hid by (vm_compute; reflexivity).
  assert (find_one (Q_eq "_id" (VObjectId Example.oid1))
            (announcements_collection Example.db) = Some Example.sports_day)
    as Hfind by (vm_compute; reflexivity).
  split; [exact example_mchen_authorized|]. split; [exact Hid|].
  split; [exact Hfind|].
  exact (update_without_fields_reads Example.db "507f1f77bcf86cd799439011"
           (Some "mchen") (VObjectId Example.oid1) Example.sports_day
           example_mchen_authorized Hid Hfind).
Defined.

Lemma update_twice_example :
  update_announcement "507f1f77bcf86cd799439011" (Some "Sports day moved")
    None None (Some "mchen") Example.db
  = (Return (response_of
               (<["message" := VStr "Sports day moved"]> Example.sports_day)),
     set_announcements
       [<["message" := VStr "Sports day moved"]> Example.sports_day;
        Example.library_closed] Example.db) ∧
  update_announcement "507f1f77bcf86cd799439011" (Some "Sports day moved")
    None None (Some "mchen")
    (set_announcements
       [<["message" := VStr "Sports day moved"]> Example.sports_day;
        Example.library_closed] Example.db)
  = (Return (response_of
               (<["message" := VStr "Sports day moved"]> Example.sports_day)),
     set_announcements
       [<["message" := VStr "Sports day moved"]> Example.sports_day;
        Example.library_closed] Example.db).
Proof.
  assert (update_announcement "507f1f77bcf86cd799439011"
            (Some "Sports day moved") None None (Some "mchen") Example.db
          = (Return (response_of
                       (<["message" := VStr "Sports day moved"]> Example.sports_day)),
             set_announcements
               [<["message" := VStr "Sports day moved"]> Example.sports_day;
                Example.library_closed] Example.db)) as Hrun
    by (vm_compute; reflexivity).
  split; [exact Hrun|].
  exact (update_idempotent Example.db "507f1f77bcf86cd799439011"
           (Some "Sports day moved") None None (Some "mchen") _ _ Hrun).
Defined.

Lemma store_well_formed_example :
  Scenario.well_formed Example.db ∧
  create_announcement "Welcome back" "2030-01-01T00:00:00" None (Some "mchen")
    "2024-12-24T10:00:00" Example.oid3 Example.db
  = (Return Scenario.returned, Scenario.after_create) ∧
  Scenario.well_formed Scenario.after_create.
Proof.
  split; [exact example_db_well_formed|]. split; [exact example_create_runs|].
  destruct handlers_keep_store_well_formed as (_ & _ & Hcreate & _).
  exact (Hcreate "Welcome back" "2030-01-01T00:00:00" None (Some "mchen")
           "2024-12-24T10:00:00" Example.oid3 Example.db _ _
           example_db_well_formed example_create_runs).
Defined.

(** ** A naive start date against a Z end date *)

(** Equal dates are rejected: the comparison is [>=], not [>]. *)
Example create_equal_dates_400 :
  create_announcement "M" "2030-01-01T00:00:00" (Some "2030-01-01T00:00:00")
    (Some "mchen") "2024-12-24T10:00:00" Example.oid3 Example.db
  = (Raise (HTTPException 400 "Start date must be before end date"),
     Example.db).
Proof. vm_compute; reflexivity. Qed.

(** C3. A create does not answer InvalidArgument (400) to every supplied,
    parseable [start_date] that is not before the [end_date]: with
    [end_date="2030-01-01T00:00:00Z"] and
    [start_date="2031-01-01T00:00:00"], a year later, both dates parse,
    the first aware and the second naive, the comparison
    [start_dt >= end_dt] raises, and the handler, which catches
    [ValueError] only, ends in that [TypeError]: an authorized requester
    gets no HTTP error of the handler, and nothing is stored. *)
Theorem C3_create_start_after_Z_end_TypeError :
  authorized Example.db (Some "mchen") ∧
  fromisoformat (normalize_Z "2031-01-01T00:00:00")
    = Some (Example.naive 2031 1 1 0 0 0) ∧
  fromisoformat (normalize_Z "2030-01-01T00:00:00Z")
    = Some (Example.utc 2030 1 1 0 0 0) ∧
  datetime_ge (Example.naive 2031 1 1 0 0 0) (Example.utc 2030 1 1 0 0 0) = None ∧
  ∃ e,
    create_announcement "M" "2030-01-01T00:00:00Z" (Some "2031-01-01T00:00:00")
      (Some "mchen") "2024-12-24T10:00:00" Example.oid3 Example.db
    = (Raise e, Example.db) ∧
    e = TypeError ∧ ¬ is_400 e.
Proof.
  split; [exact example_mchen_authorized|].
  repeat (split; [vm_compute; reflexivity|]).
  exists TypeError. split; [vm_compute; reflexivity|].
  split; [reflexivity|]. intros [detail Hdetail]. discriminate Hdetail.
Qed.

(** C4. An update does not answer InvalidArgument (400) whenever the
    final [start_date] is not before the final [end_date]: a record
    created through the handler with [end_date="2030-01-01T00:00:00Z"],
    then updated by its returned id with
    [start_date="2031-01-01T00:00:00"], has both final dates present and
    parseable, the start a year after the end; the comparison raises,
    [except ValueError] does not catch it, and the update ends in that
    [TypeError], the store as it was. *)
Theorem C4_update_start_after_Z_end_TypeError :
  create_announcement "New year" "2030-01-01T00:00:00Z" None (Some "mchen")
    "2024-12-24T10:00:00" Example.oid3 Example.db
  = (Return Reachable.returned, Reachable.after_create) ∧
  Reachable.returned !! "_id" = Some (VStr "507f1f77bcf86cd799439013") ∧
  authorized Reachable.after_create (Some "mchen") ∧
  find_one (Q_eq "_id" (VObjectId Example.oid3))
    (announcements_collection Reachable.after_create) = Some Reachable.stored ∧
  final_start_date (Some "2031-01-01T00:00:00") Reachable.stored
    = VStr "2031-01-01T00:00:00" ∧
  final_end_date None Reachable.stored = VStr "2030-01-01T00:00:00Z" ∧
  fromisoformat (normalize_Z "2031-01-01T00:00:00")
    = Some (Example.naive 2031 1 1 0 0 0) ∧
  fromisoformat (normalize_Z "2030-01-01T00:00:00Z")
    = Some (Example.utc 2030 1 1 0 0 0) ∧
  datetime_ge (Example.naive 2031 1 1 0 0 0) (Example.utc 2030 1 1 0 0 0) = None ∧
  ∃ e,
    update_announcement "507f1f77bcf86cd799439013" None None
      (Some "2031-01-01T00:00:00") (Some "mchen") Reachable.after_create
    = (Raise e, Reachable.after_create) ∧
    e = TypeError ∧ ¬ is_400 e.
Proof.
  split; [vm_compute; reflexivity|]. split; [vm_compute; reflexivity|].
  split; [exact example_mchen_authorized|].
  repeat (split; [vm_compute; reflexivity|]).
  exists TypeError. split; [vm_compute; reflexivity|].
  split; [reflexivity|]. intros [detail Hdetail]. discriminate Hdetail.
Qed.
